(** * timer_cli: the command layer of the Globus timer client

    A shallow embedding of [timer_cli/main.py] and of the parts of the Python
    standard library, [click] and [requests] that it calls, followed by the
    properties of the command layer.

    Conventions.
    - A Python [str] is a Rocq [string] holding the UTF-8 encoding of its
      code points (a lone surrogate, which the interpreter puts in [argv]
      for a byte it cannot decode, is encoded like any other code point).
      [len], the positions in error messages and [int] work on the code
      points; every character the program itself inspects (quotes, braces,
      hyphens) is ASCII, so that stripping and replacing work on the bytes.
    - A Python [int] is a [Z].
    - Exceptions, the two output streams, the token provider and the HTTP
      transport are explicit: a command is a function from a [World] to an
      outcome and a new [World].
    - [json], [uuid] and [int] follow CPython (3.8 to 3.11 agree on them);
      what differs between interpreters is a parameter: the Unicode
      database, the limit on the digits of a decimal integer, and the room
      that the recursion limit leaves to the JSON decoder.
      [urllib.parse.urlparse], whose splitting rules changed from release
      to release, is a parameter as a whole: [URL.convert] only looks at
      its result.  click is click 7.1: contexts, parameter processing,
      usage errors, the [--help] option and the standalone mode of [main].
    - A command line enters the model as what the option parser of click
      makes of it: the options and arguments met, in order, with their
      text, and whether [--help] is among them.  The dispatch through the
      groups [cli] and [job] is fixed: the properties are about the runs of
      the three job commands, started without click's completion
      variable. *)

From stdpp Require Import base strings gmap list.
From Stdlib Require Import ZArith String Ascii List Lia DecimalString.
Import ListNotations.

Set Warnings "-register-all".

Local Open Scope string_scope.
Local Open Scope Z_scope.

(** ** The interpreter

  What the program does not fix and the library consults: the Unicode
  database, as far as [int] and [urlparse] read it, and the limit on the
  number of digits of a decimal integer literal (CPython 3.11, and the
  security releases of the earlier versions). *)
Class Interpreter := {
  todecimal : Z -> Z;            (* [Py_UNICODE_TODECIMAL]: the digit, or -1 *)
  isspace : Z -> bool;           (* [Py_UNICODE_ISSPACE] *)
  nfkc : string -> string;       (* [unicodedata.normalize('NFKC', s)] *)
  int_max_str_digits : nat;      (* [sys.get_int_max_str_digits()]; 0: no limit *)
}.

(** ** Python built-ins *)

Module py.

(** [str(n)] for an [int]. *)
Definition str_int (n : Z) : string := NilZero.string_of_int (Z.to_int n).

Definition chr_in (c : ascii) (chars : string) : bool :=
  existsb (Ascii.eqb c) (list_ascii_of_string chars).

(** [s.lstrip(chars)], [s.rstrip(chars)], [s.strip(chars)]: every leading
    (trailing) character that belongs to [chars] is removed. *)
Fixpoint lstrip (chars s : string) : string :=
  match s with
  | String c s' => if chr_in c chars then lstrip chars s' else s
  | EmptyString => EmptyString
  end.

Fixpoint rstrip (chars s : string) : string :=
  match s with
  | String c s' =>
      match rstrip chars s' with
      | EmptyString => if chr_in c chars then EmptyString else String c EmptyString
      | r => String c r
      end
  | EmptyString => EmptyString
  end.

Definition strip (chars s : string) : string :=
  rstrip chars (lstrip chars s).

(** [s] between double quotes. *)
Definition dq (s : string) : string :=
  String (ascii_of_N 34) (s +:+ String (ascii_of_N 34) EmptyString).

(** [s.startswith(p)] *)
Fixpoint startswith (p s : string) : bool :=
  match p, s with
  | EmptyString, _ => true
  | String a p', String b s' => Ascii.eqb a b && startswith p' s'
  | String _ _, EmptyString => false
  end.

(** [s[n:]] *)
Fixpoint drop (n : nat) (s : string) : string :=
  match n, s with
  | S k, String _ s' => drop k s'
  | _, _ => s
  end.

(** [s[:n]] *)
Fixpoint take (n : nat) (s : string) : string :=
  match n, s with
  | S k, String c s' => String c (take k s')
  | _, _ => EmptyString
  end.

(** [s.replace(old, new)] for a non-empty [old]: the occurrences of [old]
    are replaced from left to right, without overlap.  [skip] counts the
    characters of a matched occurrence that are still to be dropped. *)
Fixpoint replace_go (old new : string) (skip : nat) (s : string) : string :=
  match s with
  | EmptyString => EmptyString
  | String c s' =>
      match skip with
      | S k => replace_go old new k s'
      | O =>
          if startswith old s
          then new +:+ replace_go old new (Nat.pred (String.length old)) s'
          else String c (replace_go old new O s')
      end
  end.

Definition replace (old new s : string) : string := replace_go old new O s.

(** [s * n] *)
Fixpoint repeat (s : string) (n : nat) : string :=
  match n with
  | O => EmptyString
  | S k => s +:+ repeat s k
  end.

(** [sub in s] *)
Fixpoint contains (sub s : string) : bool :=
  startswith sub s ||
  match s with
  | EmptyString => false
  | String _ s' => contains sub s'
  end.

Definition is_digit (c : ascii) : bool :=
  let n := N_of_ascii c in (48 <=? n)%N && (n <=? 57)%N.

Definition is_upper (c : ascii) : bool :=
  let n := N_of_ascii c in (65 <=? n)%N && (n <=? 90)%N.

Definition is_lower (c : ascii) : bool :=
  let n := N_of_ascii c in (97 <=? n)%N && (n <=? 122)%N.

Definition is_alpha (c : ascii) : bool := is_upper c || is_lower c.

Definition lower_chr (c : ascii) : ascii :=
  if is_upper c then ascii_of_N (N_of_ascii c + 32) else c.

Definition upper_chr (c : ascii) : ascii :=
  if is_lower c then ascii_of_N (N_of_ascii c - 32) else c.

Fixpoint map_str (f : ascii -> ascii) (s : string) : string :=
  match s with
  | EmptyString => EmptyString
  | String c s' => String (f c) (map_str f s')
  end.

(** [s.lower()] and [s.upper()] on ASCII letters. *)
Definition lower : string -> string := map_str lower_chr.
Definition upper : string -> string := map_str upper_chr.

(** The value of a digit in a base up to 16, as [int(s, base)] reads it. *)
Definition digit_val (c : ascii) : option Z :=
  let n := Z.of_N (N_of_ascii c) in
  if is_digit c then Some (n - 48)
  else if (97 <=? n) && (n <=? 102) then Some (n - 87)
  else if (65 <=? n) && (n <=? 70) then Some (n - 55)
  else None.

(** The characters that [int] skips around a literal ([Py_ISSPACE]):
    tab, line feed, vertical tab, form feed, carriage return and space. *)
Definition whitespace : string :=
  String (ascii_of_N 9) (String (ascii_of_N 10) (String (ascii_of_N 11)
  (String (ascii_of_N 12) (String (ascii_of_N 13) " ")))).

(** *** Code points *)

(** A continuation byte of the encoding. *)
Definition is_cont (c : ascii) : bool :=
  let n := N_of_ascii c in (128 <=? n)%N && (n <=? 191)%N.

(** [len(s)]: one for every byte that starts a code point. *)
Fixpoint len (s : string) : nat :=
  match s with
  | EmptyString => O
  | String c s' => if is_cont c then len s' else S (len s')
  end.

(** [s.isascii()] *)
Fixpoint isascii (s : string) : bool :=
  match s with
  | EmptyString => true
  | String c s' => (N_of_ascii c <? 128)%N && isascii s'
  end.

(** The code points of [s]; [cur] is the code point whose bytes are being
    read. *)
Fixpoint codepoints_go (cur : option Z) (s : string) : list Z :=
  match s with
  | EmptyString =>
      match cur with
      | Some v => [v]
      | None => []
      end
  | String c s' =>
      let n := Z.of_N (N_of_ascii c) in
      if is_cont c then
        match cur with
        | Some v => codepoints_go (Some (v * 64 + n mod 64)) s'
        | None => codepoints_go (Some (n mod 64)) s'
        end
      else
        let lead := if n <? 128 then n
                    else if n <? 224 then n - 192
                    else if n <? 240 then n - 224
                    else n - 240 in
        match cur with
        | Some v => v :: codepoints_go (Some lead) s'
        | None => codepoints_go (Some lead) s'
        end
  end.

Definition codepoints (s : string) : list Z := codepoints_go None s.

(** *** [int(s, base)] *)

(** The digits of [int(s, base)], after sign and prefix: digits of the
    base, single underscores allowed between two digits.
    [prev] tells whether the previous character was a digit. *)
Fixpoint int_digits (base : Z) (prev : bool) (acc : Z) (s : string) : option Z :=
  match s with
  | EmptyString => if prev then Some acc else None
  | String c s' =>
      if Ascii.eqb c "_"
      then (if prev then int_digits base false acc s' else None)
      else match digit_val c with
           | Some d =>
               if d <? base then int_digits base true (acc * base + d) s'
               else None
           | None => None
           end
  end.

(** The sign in front of the digits. *)
Definition split_sign (s : string) : Z * string :=
  match s with
  | String c s' =>
      if Ascii.eqb c "-" then (-1, s')
      else if Ascii.eqb c "+" then (1, s')
      else (1, s)
  | EmptyString => (1, s)
  end.

(** The prefix [0x] of base 16, which one underscore may follow. *)
Definition strip_prefix (base : Z) (s : string) : string :=
  if (base =? 16) && (startswith "0x" s || startswith "0X" s)
  then match drop 2 s with
       | String c s' => if Ascii.eqb c "_" then s' else drop 2 s
       | EmptyString => EmptyString
       end
  else s.

(** The number of digits of a literal: its characters other than the
    underscores. *)
Fixpoint count_digits (s : string) : nat :=
  match s with
  | EmptyString => O
  | String c s' => if Ascii.eqb c "_" then count_digits s' else S (count_digits s')
  end.

Section Int.
Context {interp : Interpreter}.

(** What [int] makes of a code point before it reads the literal: the
    characters below 127 stay, a space of the Unicode database becomes a
    space, a decimal digit of the database its ASCII digit; [None] for any
    other character. *)
Definition to_ascii (cp : Z) : option ascii :=
  if cp <? 127 then Some (ascii_of_N (Z.to_N cp))
  else if isspace cp then Some " "%char
  else
    let d := todecimal cp in
    if (0 <=? d) && (d <=? 9) then Some (ascii_of_N (Z.to_N (48 + d))) else None.

Fixpoint transform_go (cps : list Z) : option string :=
  match cps with
  | [] => Some EmptyString
  | cp :: r =>
      match to_ascii cp, transform_go r with
      | Some c, Some t => Some (String c t)
      | _, _ => None
      end
  end.

(** [_PyUnicode_TransformDecimalAndSpaceToASCII(s)]: an ASCII text is
    taken as it is.  [None] when a character is neither ASCII, nor a
    space, nor a decimal digit: no literal holds it. *)
Definition transform (s : string) : option string :=
  if isascii s then Some s else transform_go (codepoints s).

(** A decimal literal of more than [int_max_str_digits] digits (and more
    than 640) is refused. *)
Definition exceeds_limit (digits : nat) : bool :=
  (640 <? digits)%nat && (0 <? int_max_str_digits)%nat
  && (int_max_str_digits <? digits)%nat.

(** [int(s, base)] for [base] 10 or 16: surrounding whitespace, an
    optional sign, for base 16 an optional [0x] prefix, then the digits.
    [None] stands for [ValueError]. *)
Definition int_of_str (base : Z) (s : string) : option Z :=
  match transform s with
  | None => None
  | Some s =>
      let '(sign, s) := split_sign (strip whitespace s) in
      let s := strip_prefix base s in
      if (base =? 10) && exceeds_limit (count_digits s) then None
      else
        match int_digits base false 0 s with
        | Some n => Some (sign * n)
        | None => None
        end
  end.

End Int.

(** One hexadecimal digit, lower case. *)
Definition hex_chr (d : Z) : ascii :=
  if d <? 10 then ascii_of_N (Z.to_N (d + 48)) else ascii_of_N (Z.to_N (d + 87)).

(** ['%0<width>x' % n] for [0 <= n < 16^width]. *)
Fixpoint hex_fixed (width : nat) (n : Z) : string :=
  match width with
  | O => EmptyString
  | S w => hex_fixed w (n / 16) +:+ String (hex_chr (n mod 16)) EmptyString
  end.

End py.

(** ** The [json] module of the standard library

  [json.loads] and [json.dumps] with their default arguments, following
  CPython's decoder: the grammar it accepts (including the constants
  [NaN], [Infinity] and [-Infinity]), the message and the position of
  the error it reports, the two errors that are no decoding errors (an
  integer literal with too many digits, a document nested too deeply),
  and the separators and escapes of the encoder.  Floating-point numbers
  are kept abstract. *)

(** Python's [float]: [float(lexeme)], and the text that the encoder
    writes for a float ([float.__repr__], and [NaN], [Infinity] and
    [-Infinity] for the numbers that are not finite). *)
Class PyFloat := {
  float : Type;
  float_of_str : string -> float;
  float_repr : float -> string;
}.

(** Python's [datetime.datetime]: [strptime] over the formats that
    [click.DateTime()] tries, and [isoformat]. *)
Class PyDateTime := {
  datetime : Type;
  datetime_parse : string -> option datetime;
  isoformat : datetime -> string;
}.

Module json.
Section Json.
Context {py_float : PyFloat} {interp : Interpreter}.

Inductive value :=
| Null
| Bool (b : bool)
| Int (n : Z)
| Float (x : float)
| Str (s : string)
| Array (items : list value)
| Object (members : list (string * value)).

(** [json.JSONDecodeError(msg, doc, pos)]; a subclass of [ValueError].
    [pos] counts characters. *)
Record JSONDecodeError := { msg : string; pos : nat }.

(** What [json.loads] raises. *)
Inductive error :=
| Decode (e : JSONDecodeError)
| IntLimit (digits : nat)        (* [ValueError]: an integer of that many digits *)
| Recursion (what : string).     (* [RecursionError], on entering an array or object *)

Fixpoint count_newlines (n : nat) (doc : string) : nat * nat :=
  (* (number of newlines in doc[:n], length of the last line of doc[:n]) *)
  match doc with
  | String c doc' =>
      if py.is_cont c then count_newlines n doc'
      else
        match n with
        | S k =>
            let '(l, col) := count_newlines k doc' in
            if Ascii.eqb c (ascii_of_N 10)
            then (S l, col)
            else (l, match l with O => S col | _ => col end)
        | O => (O, O)
        end
  | EmptyString => (O, O)
  end.

(** [str(e)] for an error raised on [doc]. *)
Definition error_str (doc : string) (e : error) : string :=
  match e with
  | Decode e =>
      let '(l, col) := count_newlines (pos e) doc in
      msg e +:+ ": line " +:+ py.str_int (Z.of_nat (S l)) +:+
      " column " +:+ py.str_int (Z.of_nat (S col)) +:+
      " (char " +:+ py.str_int (Z.of_nat (pos e)) +:+ ")"
  | IntLimit digits =>
      "Exceeds the limit (" +:+ py.str_int (Z.of_nat int_max_str_digits) +:+
      " digits) for integer string conversion: value has " +:+
      py.str_int (Z.of_nat digits) +:+
      " digits; use sys.set_int_max_str_digits() to increase the limit"
  | Recursion what =>
      "maximum recursion depth exceeded while decoding a JSON " +:+ what +:+
      " from a unicode string"
  end.

Definition is_ws (c : ascii) : bool := py.chr_in c (" " +:+ py.take 1 py.whitespace
  +:+ String (ascii_of_N 10) (String (ascii_of_N 13) EmptyString)).

(** *** Strings *)

(** The UTF-8 encoding of a code point. *)
Definition byte (n : Z) : ascii := ascii_of_N (Z.to_N n).

Definition utf8 (cp : Z) : string :=
  if cp <? 128 then String (byte cp) EmptyString
  else if cp <? 2048 then
    String (byte (192 + cp / 64)) (String (byte (128 + cp mod 64)) EmptyString)
  else if cp <? 65536 then
    String (byte (224 + cp / 4096)) (String (byte (128 + (cp / 64) mod 64))
      (String (byte (128 + cp mod 64)) EmptyString))
  else
    String (byte (240 + cp / 262144)) (String (byte (128 + (cp / 4096) mod 64))
      (String (byte (128 + (cp / 64) mod 64))
        (String (byte (128 + cp mod 64)) EmptyString))).

Definition hex4 (a b c d : ascii) : option Z :=
  match py.digit_val a, py.digit_val b, py.digit_val c, py.digit_val d with
  | Some x, Some y, Some z, Some w => Some (((x * 16 + y) * 16 + z) * 16 + w)
  | _, _, _, _ => None
  end.

Definition backslash : ascii := ascii_of_N 92.
Definition dquote : ascii := ascii_of_N 34.

(** The characters a one-letter escape stands for. *)
Definition unescape (c : ascii) : option ascii :=
  if Ascii.eqb c dquote then Some dquote
  else if Ascii.eqb c backslash then Some backslash
  else if Ascii.eqb c "/" then Some "/"%char
  else if Ascii.eqb c "b" then Some (ascii_of_N 8)
  else if Ascii.eqb c "f" then Some (ascii_of_N 12)
  else if Ascii.eqb c "n" then Some (ascii_of_N 10)
  else if Ascii.eqb c "r" then Some (ascii_of_N 13)
  else if Ascii.eqb c "t" then Some (ascii_of_N 9)
  else None.

(** [scanstring(doc, end)]: [s] is [doc[idx:]], just after the opening
    quote at [begin].  Returns the decoded string and the index after the
    closing quote. *)
Fixpoint scanstring (begin idx : nat) (acc : string) (s : string)
  : JSONDecodeError + (string * nat) :=
  match s with
  | EmptyString => inl {| msg := "Unterminated string starting at"; pos := begin |}
  | String c s1 =>
      if Ascii.eqb c dquote then inr (acc, S idx)
      else if (N_of_ascii c <=? 31)%N then
        inl {| msg := "Invalid control character at"; pos := idx |}
      else if negb (Ascii.eqb c backslash) then
        scanstring begin (S idx) (acc +:+ String c EmptyString) s1
      else
        match s1 with
        | EmptyString =>
            inl {| msg := "Unterminated string starting at"; pos := begin |}
        | String e s2 =>
            if negb (Ascii.eqb e "u") then
              match unescape e with
              | Some ch =>
                  scanstring begin (idx + 2) (acc +:+ String ch EmptyString) s2
              | None => inl {| msg := "Invalid \escape"; pos := idx |}
              end
            else
              match s2 with
              | String h1 (String h2 (String h3 (String h4 ((String _ _) as s6))))  =>
                  match hex4 h1 h2 h3 h4 with
                  | None => inl {| msg := "Invalid \uXXXX escape"; pos := S idx |}
                  | Some hi =>
                      let single :=
                        scanstring begin (idx + 6) (acc +:+ utf8 hi) s6 in
                      if (55296 <=? hi) && (hi <=? 56319) then
                        match s6 with
                        | String b1 (String b2 (String g1 (String g2
                            (String g3 (String g4 ((String _ _) as s12)))))) =>
                            if Ascii.eqb b1 backslash && Ascii.eqb b2 "u" then
                              match hex4 g1 g2 g3 g4 with
                              | None =>
                                  inl {| msg := "Invalid \uXXXX escape";
                                         pos := idx + 7 |}
                              | Some lo =>
                                  if (56320 <=? lo) && (lo <=? 57343) then
                                    scanstring begin (idx + 12)
                                      (acc +:+ utf8 (65536 + (hi - 55296) * 1024
                                                     + (lo - 56320))) s12
                                  else single
                              end
                            else single
                        | _ => single
                        end
                      else single
                  end
              | _ => inl {| msg := "Invalid \uXXXX escape"; pos := S idx |}
              end
        end
  end.

(** *** Numbers: an optional minus sign, an integer part without leading
  zero, an optional fraction, an optional exponent. *)

Fixpoint span_digits (s : string) : string * string :=
  match s with
  | String c s' =>
      if py.is_digit c
      then let '(d, r) := span_digits s' in (String c d, r)
      else (EmptyString, s)
  | EmptyString => (EmptyString, EmptyString)
  end.

(** The integer part, or [None] when the text does not start a number. *)
Definition match_integer (s : string) : option (string * string) :=
  let '(sign, s1) :=
    match s with
    | String "-" r => ("-", r)
    | _ => ("", s)
    end in
  match s1 with
  | String "0" r => Some (sign +:+ "0", r)
  | String c _ =>
      if py.is_digit c
      then let '(d, r) := span_digits s1 in Some (sign +:+ d, r)
      else None
  | EmptyString => None
  end.

Definition match_frac (s : string) : string * string :=
  match s with
  | String "." r =>
      match span_digits r with
      | (EmptyString, _) => (EmptyString, s)
      | (d, r') => ("." +:+ d, r')
      end
  | _ => (EmptyString, s)
  end.

Definition match_exp (s : string) : string * string :=
  match s with
  | String e r =>
      if Ascii.eqb e "e" || Ascii.eqb e "E" then
        let '(sign, r1) :=
          match r with
          | String "-" r' => ("-", r')
          | String "+" r' => ("+", r')
          | _ => ("", r)
          end in
        match span_digits r1 with
        | (EmptyString, _) => (EmptyString, s)
        | (d, r') => (String e sign +:+ d, r')
        end
      else (EmptyString, s)
  | EmptyString => (EmptyString, s)
  end.

(** The number at the start of [s] and the length of its text; for an
    integer that [int] refuses, the number of its digits. *)
Definition match_number (s : string) : option ((nat + value) * nat) :=
  match match_integer s with
  | None => None
  | Some (i, r) =>
      let '(f, r1) := match_frac r in
      let '(e, _) := match_exp r1 in
      let text := i +:+ f +:+ e in
      Some (match f, e with
            | EmptyString, EmptyString =>
                match py.int_of_str 10 i with
                | Some n => inr (Int n)
                | None => inl (py.count_digits (snd (py.split_sign i)))
                end
            | _, _ => inr (Float (float_of_str text))
            end, String.length text)
  end.

(** *** Tokens *)

Inductive token_kind :=
| TLBrace | TRBrace | TLBracket | TRBracket | TComma | TColon
| TValue (v : value)              (* a string, a number or a constant *)
| TError (e : JSONDecodeError)    (* a string that [scanstring] rejects *)
| TTooLong (digits : nat)         (* an integer that [int] refuses *)
| TUnknown                        (* no value starts with this character *)
| TEnd.                           (* the end of the document *)

Definition token : Type := nat * token_kind.

(** The token that starts at [s = doc[idx:]] (not whitespace) and the
    number of characters it spans. *)
Definition token_at (idx : nat) (s : string) : token_kind * nat :=
  match s with
  | EmptyString => (TEnd, O)
  | String c s' =>
      if Ascii.eqb c "{" then (TLBrace, 1%nat)
      else if Ascii.eqb c "}" then (TRBrace, 1%nat)
      else if Ascii.eqb c "[" then (TLBracket, 1%nat)
      else if Ascii.eqb c "]" then (TRBracket, 1%nat)
      else if Ascii.eqb c "," then (TComma, 1%nat)
      else if Ascii.eqb c ":" then (TColon, 1%nat)
      else if Ascii.eqb c dquote then
        match scanstring idx (S idx) EmptyString s' with
        | inr (str, stop) => (TValue (Str str), (stop - idx)%nat)
        | inl e => (TError e, String.length s)
        end
      else if py.startswith "null" s then (TValue Null, 4%nat)
      else if py.startswith "true" s then (TValue (Bool true), 4%nat)
      else if py.startswith "false" s then (TValue (Bool false), 5%nat)
      else
        match match_number s with
        | Some (inr v, n) => (TValue v, n)
        | Some (inl d, n) => (TTooLong d, n)
        | None =>
            if py.startswith "NaN" s
            then (TValue (Float (float_of_str "NaN")), 3%nat)
            else if py.startswith "Infinity" s
            then (TValue (Float (float_of_str "Infinity")), 8%nat)
            else if py.startswith "-Infinity" s
            then (TValue (Float (float_of_str "-Infinity")), 9%nat)
            else (TUnknown, String.length s)
        end
  end.

(** The tokens of [doc[idx:]]; [skip] characters still belong to the
    previous token. *)
Fixpoint tokens (skip idx : nat) (s : string) : list token :=
  match s with
  | EmptyString => [(idx, TEnd)]
  | String c s' =>
      match skip with
      | S k => tokens k (S idx) s'
      | O =>
          if is_ws c then tokens O (S idx) s'
          else
            let '(t, n) := token_at idx s in
            (idx, t) :: tokens (Nat.pred n) (S idx) s'
      end
  end.

(** *** The decoder, as a machine over the tokens *)

(** [d[k] = v] on a [dict] that keeps insertion order. *)
Fixpoint dict_set (k : string) (v : value) (d : list (string * value))
  : list (string * value) :=
  match d with
  | [] => [(k, v)]
  | (k', v') :: d' =>
      if String.eqb k k' then (k', v) :: d' else (k', v') :: dict_set k v d'
  end.

(** [dict(pairs)] *)
Definition dict (pairs : list (string * value)) : list (string * value) :=
  fold_left (fun d kv => dict_set (fst kv) (snd kv) d) pairs [].

Inductive frame :=
| FArray (rev_items : list value)
| FObject (rev_pairs : list (string * value)) (key : string).

Inductive mode :=
| WantValue (first_item : bool)   (* a value; [true]: or the end of an empty array *)
| WantFirstKey                    (* after the opening brace *)
| WantKey                         (* after a comma in an object *)
| WantColon
| AfterItem                       (* after a value in an array *)
| AfterMember                     (* after a value in an object *)
| Done (v : value).

Definition state : Type := mode * list frame.

(** A value is complete: it goes to the enclosing array or object. *)
Definition complete (v : value) (stack : list frame) : state :=
  match stack with
  | [] => (Done v, [])
  | FArray items :: st => (AfterItem, FArray (v :: items) :: st)
  | FObject pairs k :: st => (AfterMember, FObject ((k, v) :: pairs) k :: st)
  end.

Definition fail {A} (m : string) (p : nat) : error + A :=
  inl (Decode {| msg := m; pos := p |}).

(** One token.  [room] is the number of arrays and objects, one inside the
    other, that the decoder can enter before the interpreter reaches its
    recursion limit. *)
Definition step (room : nat) (st : state) (t : token) : error + state :=
  let '(md, stack) := st in
  let '(p, k) := t in
  match md with
  | WantValue first =>
      match k with
      | TValue v => inr (complete v stack)
      | TLBrace =>
          if (room <=? length stack)%nat then inl (Recursion "object")
          else inr (WantFirstKey, stack)
      | TLBracket =>
          if (room <=? length stack)%nat then inl (Recursion "array")
          else inr (WantValue true, FArray [] :: stack)
      | TError e => inl (Decode e)
      | TTooLong d => inl (IntLimit d)
      | TRBracket =>
          match first, stack with
          | true, FArray _ :: st => inr (complete (Array []) st)
          | _, _ => fail "Expecting value" p
          end
      | _ => fail "Expecting value" p
      end
  | WantFirstKey =>
      match k with
      | TRBrace => inr (complete (Object []) stack)
      | TValue (Str key) => inr (WantColon, FObject [] key :: stack)
      | TError e => inl (Decode e)
      | _ => fail "Expecting property name enclosed in double quotes" p
      end
  | WantKey =>
      match k, stack with
      | TValue (Str key), FObject pairs _ :: st =>
          inr (WantColon, FObject pairs key :: st)
      | TError e, _ => inl (Decode e)
      | _, _ => fail "Expecting property name enclosed in double quotes" p
      end
  | WantColon =>
      match k with
      | TColon => inr (WantValue false, stack)
      | _ => fail "Expecting ':' delimiter" p
      end
  | AfterItem =>
      match k, stack with
      | TComma, _ => inr (WantValue false, stack)
      | TRBracket, FArray items :: st => inr (complete (Array (rev items)) st)
      | _, _ => fail "Expecting ',' delimiter" p
      end
  | AfterMember =>
      match k, stack with
      | TComma, _ => inr (WantKey, stack)
      | TRBrace, FObject pairs _ :: st =>
          inr (complete (Object (dict (rev pairs))) st)
      | _, _ => fail "Expecting ',' delimiter" p
      end
  | Done v =>
      match k with
      | TEnd => inr st
      | _ => fail "Extra data" p
      end
  end.

Fixpoint run (room : nat) (st : state) (ts : list token) : error + value :=
  match ts with
  | [] =>
      match st with
      | (Done v, _) => inr v
      | _ => fail "Expecting value" O
      end
  | t :: ts' =>
      match step room st t with
      | inl e => inl e
      | inr st' => run room st' ts'
      end
  end.

(** The byte order mark, U+FEFF. *)
Definition bom : string :=
  String (ascii_of_N 239) (String (ascii_of_N 187) (String (ascii_of_N 191) "")).

(** [json.loads(doc)], with [room] for nested arrays and objects.  The
    position of a decoding error is the number of characters before it. *)
Definition loads (room : nat) (doc : string) : error + value :=
  if py.startswith bom doc
  then fail "Unexpected UTF-8 BOM (decode using utf-8-sig)" O
  else
    match run room (WantValue false, []) (tokens O O doc) with
    | inl (Decode e) =>
        inl (Decode {| msg := msg e; pos := py.len (py.take (pos e) doc) |})
    | r => r
    end.

(** *** The encoder *)

(** [\uXXXX] for a code point, as a surrogate pair above the basic plane. *)
Definition escape_cp (cp : Z) : string :=
  if cp <? 65536 then "\u" +:+ py.hex_fixed 4 cp
  else
    let v := cp - 65536 in
    "\u" +:+ py.hex_fixed 4 (55296 + v / 1024) +:+
    "\u" +:+ py.hex_fixed 4 (56320 + v mod 1024).

Definition escape_chr (c : ascii) : string :=
  let n := Z.of_N (N_of_ascii c) in
  if Ascii.eqb c dquote then String backslash (String dquote EmptyString)
  else if Ascii.eqb c backslash then String backslash (String backslash EmptyString)
  else if n =? 10 then "\n"
  else if n =? 13 then "\r"
  else if n =? 9 then "\t"
  else if n =? 12 then "\f"
  else if n =? 8 then "\b"
  else if (32 <=? n) && (n <=? 126) then String c EmptyString
  else escape_cp n.

Definition cont (c : ascii) : Z := Z.of_N (N_of_ascii c) mod 64.

(** The body of [encode_basestring_ascii]: every character outside the
    printable ASCII range is escaped. *)
Fixpoint escape_ascii (s : string) : string :=
  match s with
  | EmptyString => EmptyString
  | String c s1 =>
      let n := Z.of_N (N_of_ascii c) in
      if n <? 128 then escape_chr c +:+ escape_ascii s1
      else
        match s1 with
        | String c1 s2 =>
            if n <? 224 then escape_cp ((n - 192) * 64 + cont c1) +:+ escape_ascii s2
            else
              match s2 with
              | String c2 s3 =>
                  if n <? 240 then
                    escape_cp (((n - 224) * 64 + cont c1) * 64 + cont c2)
                    +:+ escape_ascii s3
                  else
                    match s3 with
                    | String c3 s4 =>
                        escape_cp ((((n - 240) * 64 + cont c1) * 64 + cont c2) * 64
                                   + cont c3)
                        +:+ escape_ascii s4
                    | EmptyString => escape_cp n
                    end
              | EmptyString => escape_cp n
              end
        | EmptyString => escape_cp n
        end
  end.

Definition encode_basestring_ascii (s : string) : string :=
  String dquote (escape_ascii s) +:+ String dquote EmptyString.

Fixpoint join (sep : string) (l : list string) : string :=
  match l with
  | [] => EmptyString
  | [x] => x
  | x :: l' => x +:+ sep +:+ join sep l'
  end.

(** [json.dumps(v)] *)
Fixpoint dumps (v : value) : string :=
  match v with
  | Null => "null"
  | Bool true => "true"
  | Bool false => "false"
  | Int n => py.str_int n
  | Float x => float_repr x
  | Str s => encode_basestring_ascii s
  | Array items => "[" +:+ join ", " (map dumps items) +:+ "]"
  | Object members =>
      "{" +:+ join ", " (map (fun kv => match kv with
                                        | (k, x) => encode_basestring_ascii k
                                                    +:+ ": " +:+ dumps x
                                        end) members) +:+ "}"
  end.

End Json.
End json.

(** ** The [uuid] module: [uuid.UUID(hex)] and [str(u)] *)

Module uuid.

(** A UUID is its 128-bit integer. *)
Record UUID := { int : Z }.

(** The first two statements of [uuid.UUID(hex)]: the prefixes [urn:] and
    [uuid:], the surrounding braces and the hyphens are removed. *)
Definition normalize (hex : string) : string :=
  let hex := py.replace "uuid:" "" (py.replace "urn:" "" hex) in
  py.replace "-" "" (py.strip "{}" hex).

(** [uuid.UUID(hex)]; [None] stands for the [ValueError] that a badly
    formed text raises: what is left must have 32 characters, and
    [int(hex, 16)] must read them as a number below [2 ** 128]. *)
Definition of_str {interp : Interpreter} (hex : string) : option UUID :=
  let hex := normalize hex in
  if negb (py.len hex =? 32)%nat then None
  else
    match py.int_of_str 16 hex with
    | Some n => if (0 <=? n) && (n <? 2 ^ 128) then Some {| int := n |} else None
    | None => None
    end.

(** ['%s-%s-%s-%s-%s' % (hex[:8], hex[8:12], hex[12:16], hex[16:20], hex[20:])] *)
Definition hyphenate (hex : string) : string :=
  py.take 8 hex +:+ "-" +:+ py.take 4 (py.drop 8 hex) +:+ "-" +:+
  py.take 4 (py.drop 12 hex) +:+ "-" +:+ py.take 4 (py.drop 16 hex) +:+ "-" +:+
  py.drop 20 hex.

(** [str(u)]: 32 lower-case hexadecimal digits in groups of 8-4-4-4-12. *)
Definition str (u : UUID) : string := hyphenate (py.hex_fixed 32 (int u)).

(** Other ways of writing [u]: in upper case, between braces, as a URN,
    and without hyphens. *)
Definition spellings (u : UUID) : list string :=
  [ str u;
    py.upper (str u);
    "{" +:+ str u +:+ "}";
    "urn:uuid:" +:+ str u;
    py.hex_fixed 32 (int u) ].

End uuid.

(** ** [urllib.parse]: [urlparse] and [ParseResult.geturl] *)

Module urllib_parse.

Record ParseResult := {
  scheme : string;
  netloc : string;
  path : string;
  params : string;
  query : string;
  fragment : string;
}.

(** [urlparse(url)] for a [str]: the six components, or the message of
    the [ValueError] that it raises.  How a text is split depends on the
    release of the library (the characters stripped before splitting, the
    checks on the network location), so the function is a parameter; the
    splitting of CPython 3.8 is given below. *)
Class Urllib := {
  urlparse : string -> string + ParseResult;
}.

(** [s.partition(c)] when [c] occurs in [s]. *)
Fixpoint partition (c : ascii) (s : string) : option (string * string) :=
  match s with
  | EmptyString => None
  | String a s' =>
      if Ascii.eqb a c then Some (EmptyString, s')
      else match partition c s' with
           | Some (l, r) => Some (String a l, r)
           | None => None
           end
  end.

Definition scheme_chars : string :=
  "abcdefghijklmnopqrstuvwxyzABCDEFGHIJKLMNOPQRSTUVWXYZ0123456789+-.".

Fixpoint all_in (chars s : string) : bool :=
  match s with
  | EmptyString => true
  | String c s' => py.chr_in c chars && all_in chars s'
  end.

(** [_splitnetloc(url, 2)] on a text that starts with two slashes: the
    network location runs up to the first of [/], [?] and [#]. *)
Fixpoint splitnetloc (s : string) : string * string :=
  match s with
  | EmptyString => (EmptyString, EmptyString)
  | String c s' =>
      if py.chr_in c "/?#" then (EmptyString, s)
      else let '(n, r) := splitnetloc s' in (String c n, r)
  end.

Definition uses_params : list string :=
  [""; "ftp"; "hdl"; "prospero"; "http"; "imap"; "https"; "shttp"; "rtsp";
   "rtspu"; "sip"; "sips"; "mms"; "sftp"; "tel"].

Definition uses_netloc : list string :=
  [""; "ftp"; "http"; "gopher"; "nntp"; "telnet"; "imap"; "wais"; "file";
   "mms"; "https"; "shttp"; "snews"; "prospero"; "rtsp"; "rtspu"; "rsync";
   "svn"; "svn+ssh"; "sftp"; "nfs"; "git"; "git+ssh"; "ws"; "wss"].

Definition str_in (s : string) (l : list string) : bool :=
  existsb (String.eqb s) l.

(** The text after the last [/] of [s], and what precedes it. *)
Fixpoint rsplit_slash (s : string) : string * string :=
  match s with
  | EmptyString => (EmptyString, EmptyString)
  | String c s' =>
      let '(h, t) := rsplit_slash s' in
      if Ascii.eqb c "/" && negb (py.contains "/" s')
      then (String c EmptyString, s')
      else (String c h, t)
  end.

(** [_splitparams(url)]: the parameters follow the first [;] of the last
    path segment. *)
Definition splitparams (url : string) : string * string :=
  if py.contains "/" url then
    let '(h, t) := rsplit_slash url in
    match partition ";" t with
    | Some (l, r) => (h +:+ l, r)
    | None => (url, EmptyString)
    end
  else
    match partition ";" url with
    | Some (l, r) => (l, r)
    | None => (url, EmptyString)
    end.

(** [urlsplit(url)] up to the scheme: the scheme (lower-cased) and the
    rest, when the text before the first colon is made of scheme characters
    and what follows is not a port number. *)
Definition split_scheme (url : string) : string * string :=
  match partition ":" url with
  | Some (String c p, rest) =>
      let pre := String c p in
      if String.eqb pre "http" then ("http", rest)
      else if all_in scheme_chars pre then
        if (String.eqb rest "") || negb (all_in "0123456789" rest)
        then (py.lower pre, rest)
        else ("", url)
      else ("", url)
  | _ => ("", url)
  end.

(** [_checknetloc(netloc)]: a network location that is not ASCII must
    not bring in one of [/?#@:] under NFKC normalization. *)
Definition checknetloc {interp : Interpreter} (loc : string) : bool :=
  if String.eqb loc "" || py.isascii loc then true
  else
    let n := py.replace "?" "" (py.replace "#" "" (py.replace ":" ""
               (py.replace "@" "" loc))) in
    let loc2 := nfkc n in
    if String.eqb n loc2 then true
    else negb (existsb (fun c => py.contains c loc2) ["/"; "?"; "#"; "@"; ":"]).

(** [urlparse(url)] in CPython 3.8; [inl] is the message of the
    [ValueError] raised for unbalanced brackets in the network location,
    or by [_checknetloc]. *)
Definition urlparse_38 {interp : Interpreter} (url : string)
  : string + ParseResult :=
  let '(sch, url) := split_scheme url in
  let '(loc, url) :=
    if py.startswith "//" url then splitnetloc (py.drop 2 url)
    else ("", url) in
  if xorb (py.contains "[" loc) (py.contains "]" loc)
  then inl "Invalid IPv6 URL"
  else
    let '(url, frag) :=
      match partition "#" url with
      | Some (l, r) => (l, r)
      | None => (url, "")
      end in
    let '(url, qry) :=
      match partition "?" url with
      | Some (l, r) => (l, r)
      | None => (url, "")
      end in
    if negb (checknetloc loc)
    then inl ("netloc '" +:+ loc +:+ "' contains invalid characters under NFKC "
              +:+ "normalization")
    else
      let '(url, prm) :=
        if str_in sch uses_params && py.contains ";" url
        then splitparams url
        else (url, "") in
      inr {| scheme := sch; netloc := loc; path := url; params := prm;
             query := qry; fragment := frag |}.

(** [r.geturl()], that is [urlunparse(r)]. *)
Definition geturl (r : ParseResult) : string :=
  let url := if String.eqb (params r) "" then path r
             else path r +:+ ";" +:+ params r in
  let url :=
    if negb (String.eqb (netloc r) "") ||
       (negb (String.eqb (scheme r) "") && str_in (scheme r) uses_netloc
        && negb (py.startswith "//" url))
    then
      let url := if negb (String.eqb url "") && negb (py.startswith "/" url)
                 then "/" +:+ url else url in
      "//" +:+ netloc r +:+ url
    else url in
  let url := if String.eqb (scheme r) "" then url else scheme r +:+ ":" +:+ url in
  let url := if String.eqb (query r) "" then url else url +:+ "?" +:+ query r in
  if String.eqb (fragment r) "" then url else url +:+ "#" +:+ fragment r.

End urllib_parse.

(** ** The process: exceptions, output streams, collaborators *)

Definition nl : string := String (ascii_of_N 10) EmptyString.

(** The command objects of [main.py]: the two groups and the three job
    commands. *)
Inductive command := cmd_cli | cmd_job | cmd_submit | cmd_list | cmd_status.

Section Process.
Context {py_float : PyFloat} {py_datetime : PyDateTime} {interp : Interpreter}
  {urllib : urllib_parse.Urllib}.

(** A parameter value after conversion by its click type. *)
Inductive pyval :=
| VNone
| VStr (s : string)
| VInt (n : Z)
| VDateTime (d : datetime)
| VUrl (r : urllib_parse.ParseResult)
| VUuid (u : uuid.UUID).

(** [click.Context] *)
Record Context := {
  ctx_command : command;
  ctx_params : list (string * pyval);
}.

(** The classes of [click.exceptions] below [UsageError]:
    [BadParameter], [BadOptionUsage], [BadArgumentUsage] and
    [NoSuchOption] extend [UsageError]; [MissingParameter] extends
    [BadParameter]. *)
Inductive usage_class :=
| UsageError_ | BadParameter | MissingParameter | BadOptionUsage
| BadArgumentUsage | NoSuchOption.

(** A [click.UsageError] instance. *)
Record UsageError := {
  cls : usage_class;
  message : string;
  param_hint : option string;     (* how the parameter is shown, if one is attached *)
  param_type : string;            (* "option" or "argument", for a missing parameter *)
  option_name : option string;    (* [BadOptionUsage.option_name] *)
  ctx : option Context;
  cmd : option command;
}.

(** [isinstance(e, c)] inside the hierarchy. *)
Definition isinstance (e : UsageError) (c : usage_class) : bool :=
  match c, cls e with
  | UsageError_, _ => true
  | BadParameter, (BadParameter | MissingParameter) => true
  | MissingParameter, MissingParameter => true
  | BadOptionUsage, BadOptionUsage => true
  | BadArgumentUsage, BadArgumentUsage => true
  | NoSuchOption, NoSuchOption => true
  | _, _ => false
  end.

(** [UsageError.exit_code] *)
Definition exit_code (e : UsageError) : Z := 2.

Inductive exn :=
| SystemExit (code : Z)               (* raised by [sys.exit] *)
| Exit (code : Z)                     (* [click.exceptions.Exit], raised by [ctx.exit] *)
| ClickUsage (e : UsageError)
| ClickException (msg : string) (code : Z)  (* a click exception that is no usage
                                               error, with its [exit_code] *)
| Abort                               (* [click.exceptions.Abort] *)
| EOFError
| KeyboardInterrupt
| BrokenPipe                          (* an [OSError] whose [errno] is [EPIPE] *)
| ValueError (msg : string)           (* and its subclasses, such as [JSONDecodeError] *)
| RuntimeError (msg : string)         (* and its subclasses, such as [RecursionError] *)
| TypeError (msg : string)
| RequestException (description : string)   (* and its subclasses *)
| OtherError (description : string).        (* any exception outside these classes *)

(** [str(e)] *)
Definition exn_str (e : exn) : string :=
  match e with
  | SystemExit c | Exit c => py.str_int c
  | ClickUsage u => message u
  | ClickException m _ => m
  | Abort | EOFError | KeyboardInterrupt | BrokenPipe => ""
  | ValueError m | RuntimeError m | TypeError m => m
  | RequestException d | OtherError d => d
  end.

(** [requests]: what is sent and what comes back. *)
Record Request := {
  method : string;
  url : string;
  json_body : option json.value;      (* the [json=] argument *)
  headers : gmap string string;
  timeout : Z;
}.

Record Response := {
  status_code : Z;
  text : string;                      (* the body *)
}.

Record World := {
  stdout : list string;               (* one entry per [click.echo] *)
  stderr : list string;
  http_calls : list Request;          (* the requests issued, oldest first *)
  token_calls : list (option string); (* the calls to the token provider *)
  contexts : list Context;            (* click's stack of active contexts *)
}.

Definition initial : World :=
  {| stdout := []; stderr := []; http_calls := []; token_calls := [];
     contexts := [] |}.

(** The collaborators outside [main.py]: the token provider of
    [timer_cli.auth], the network behind [requests], the clock, the help
    formatter of click, and the stack of the interpreter. *)
Class Platform := {
  access_token : option string -> exn + string;
  send : Request -> exn + Response;
  now : datetime;
  help_text : command -> string;      (* written by [format_help_text] *)
  options_text : command -> string;   (* written by [format_options] *)
  epilog_text : command -> string;    (* written by [format_epilog] *)
  usage_line : command -> string;     (* [ctx.get_usage()] *)
  help_page : command -> string;      (* [ctx.get_help()], what [--help] prints *)
  command_path : command -> string;   (* [ctx.command_path] *)
  frames : exn -> string;             (* for an uncaught exception: the stack and the
                                         final line that the interpreter prints *)
  body_room : nat;                    (* the arrays and objects, one inside the other,
                                         that [json.loads] can enter when [submit]
                                         calls it, before the recursion limit *)
  response_room : nat;                (* the same, inside [response.json()] *)
}.

Context {platform : Platform}.

(** *** Commands as state transformers that may raise *)

Definition M (A : Type) : Type := World -> (exn + A) * World.

Definition ret {A} (a : A) : M A := fun w => (inr a, w).

Definition bind {A B} (m : M A) (k : A -> M B) : M B :=
  fun w => match m w with
           | (inr a, w') => k a w'
           | (inl e, w') => (inl e, w')
           end.

Definition raise {A} (e : exn) : M A := fun w => (inl e, w).

(** [try: m except ...: h]; [h e = None] when no clause matches [e]. *)
Definition try_except {A} (m : M A) (h : exn -> option (M A)) : M A :=
  fun w => match m w with
           | (inr a, w') => (inr a, w')
           | (inl e, w') =>
               match h e with
               | Some k => k w'
               | None => (inl e, w')
               end
           end.

Declare Scope py_scope.
Delimit Scope py_scope with py.
Notation "x <- m ;; k" := (bind m (fun x => k))
  (at level 100, m at next level, right associativity) : py_scope.
Notation "m ;; k" := (bind m (fun _ => k))
  (at level 100, right associativity) : py_scope.
Local Open Scope py_scope.

Definition set_stdout (l : list string) (w : World) : World :=
  {| stdout := l; stderr := stderr w; http_calls := http_calls w;
     token_calls := token_calls w; contexts := contexts w |}.

Definition set_stderr (l : list string) (w : World) : World :=
  {| stdout := stdout w; stderr := l; http_calls := http_calls w;
     token_calls := token_calls w; contexts := contexts w |}.

Definition set_http_calls (l : list Request) (w : World) : World :=
  {| stdout := stdout w; stderr := stderr w; http_calls := l;
     token_calls := token_calls w; contexts := contexts w |}.

Definition set_token_calls (l : list (option string)) (w : World) : World :=
  {| stdout := stdout w; stderr := stderr w; http_calls := http_calls w;
     token_calls := l; contexts := contexts w |}.

Definition set_contexts (l : list Context) (w : World) : World :=
  {| stdout := stdout w; stderr := stderr w; http_calls := http_calls w;
     token_calls := token_calls w; contexts := l |}.

(** [sys.exit(code)] *)
Definition sys_exit {A} (code : Z) : M A := raise (SystemExit code).

(** [timer_cli.auth.get_access_token(token_store=...)] *)
Definition get_access_token (token_store : option string) : M string :=
  fun w =>
    (access_token token_store,
     set_token_calls (token_calls w ++ [token_store]) w).

(** [requests.request]: the call is recorded, then the network answers. *)
Definition requests_send (r : Request) : M Response :=
  fun w => (send r, set_http_calls (http_calls w ++ [r]) w).

Definition requests_post (u : string) (body : json.value)
  (hs : gmap string string) (t : Z) : M Response :=
  requests_send {| method := "POST"; url := u; json_body := Some body;
                   headers := hs; timeout := t |}.

Definition requests_get (u : string) (hs : gmap string string) (t : Z)
  : M Response :=
  requests_send {| method := "GET"; url := u; json_body := None;
                   headers := hs; timeout := t |}.

(** The exception that [json.loads(doc)] raises: a [ValueError], or the
    [RecursionError] of a document nested too deeply. *)
Definition json_error (doc : string) (e : json.error) : exn :=
  match e with
  | json.Recursion _ => RuntimeError (json.error_str doc e)
  | _ => ValueError (json.error_str doc e)
  end.

(** [response.json()] *)
Definition response_json (r : Response) : M json.value :=
  match json.loads response_room (text r) with
  | inr v => ret v
  | inl e => raise (json_error (text r) e)
  end.

(** *** click *)

(** [click.echo(message)] and [click.echo(message, err=True)] *)
Definition echo (message : string) : M unit :=
  fun w => (inr tt, set_stdout (stdout w ++ [message +:+ nl]) w).

Definition echo_err (message : string) : M unit :=
  fun w => (inr tt, set_stderr (stderr w ++ [message +:+ nl]) w).

(** [click.get_current_context()] *)
Definition get_current_context : M Context :=
  fun w => match contexts w with
           | c :: _ => (inr c, w)
           | [] => (inl (RuntimeError "There is no active click context."), w)
           end.

(** [with ctx: body]: the context is active during [body], whatever its
    outcome. *)
Definition with_context {A} (c : Context) (body : M A) : M A :=
  fun w =>
    let '(r, w') := body (set_contexts (c :: contexts w) w) in
    (r, set_contexts (tl (contexts w')) w').

(** [ctx.exit(code)] *)
Definition ctx_exit (c : Context) (code : Z) : M unit := raise (Exit code).

(** [e.format_message()] *)
Definition format_message (e : UsageError) : string :=
  match cls e with
  | BadParameter =>
      match param_hint e with
      | Some h => "Invalid value for " +:+ h +:+ ": " +:+ message e
      | None => "Invalid value: " +:+ message e
      end
  | MissingParameter =>
      "Missing " +:+ param_type e +:+
      match param_hint e with
      | Some h => " " +:+ h
      | None => ""
      end +:+
      (if String.eqb (message e) "" then "." else ".  " +:+ message e)
  | _ => message e
  end.

(** [e.show()]: on the error stream, the usage line of the context (and
    the hint towards [--help] when the command is known), then the
    message. *)
Definition show (e : UsageError) : M unit :=
  match ctx e with
  | Some c =>
      let hint :=
        match cmd e with
        | Some _ => "Try '" +:+ command_path (ctx_command c) +:+ " --help' for help."
                    +:+ nl
        | None => ""
        end in
      echo_err (usage_line (ctx_command c) +:+ nl +:+ hint)
  | None => ret tt
  end ;;
  echo_err ("Error: " +:+ format_message e).

(** A click parameter type: its method [convert(value, param, ctx)]; of
    the parameter, only the way it is shown in messages matters. *)
Record ParamType := {
  type_name : string;
  convert : string -> string -> Context -> M pyval;
}.

(** [self.fail(message, param, ctx)] of a [ParamType]: raises
    [BadParameter]; the command of the error is that of the context. *)
Definition fail {A} (msg : string) (param : option string) (c : option Context)
  : M A :=
  raise (ClickUsage {| cls := BadParameter; message := msg; param_hint := param;
                       param_type := ""; option_name := None; ctx := c;
                       cmd := option_map ctx_command c |}).

(** The built-in types used by the commands. *)
Definition STRING : ParamType :=
  {| type_name := "text"; convert := fun v _ _ => ret (VStr v) |}.

Definition INT : ParamType :=
  {| type_name := "integer";
     convert := fun v param c =>
       match py.int_of_str 10 v with
       | Some n => ret (VInt n)
       | None => fail (v +:+ " is not a valid integer") (Some param) (Some c)
       end |}.

Definition DateTime : ParamType :=
  {| type_name := "datetime";
     convert := fun v _ _ =>
       match datetime_parse v with
       | Some d => ret (VDateTime d)
       | None =>
           fail ("invalid datetime format: " +:+ v +:+ ". (choose from "
                 +:+ "%Y-%m-%d, %Y-%m-%dT%H:%M:%S, %Y-%m-%d %H:%M:%S)") None None
       end |}.

(** A callable used as a type ([type=uuid.UUID]): a [ValueError] of the
    callable becomes [BadParameter]. *)
Definition FuncParamType_UUID : ParamType :=
  {| type_name := "UUID";
     convert := fun v param c =>
       match uuid.of_str v with
       | Some u => ret (VUuid u)
       | None => fail v (Some param) (Some c)
       end |}.

(** [click.Option] and [click.Argument] *)
Record Param := {
  name : string;                (* the name of the keyword argument *)
  hint : string;                (* [get_error_hint] *)
  kind : string;                (* "option" or "argument" *)
  required : bool;
  type : ParamType;
}.

(** What the option parser of click hands over: the options and
    arguments met on the command line, in order, each with its text, the
    values that no parameter takes, and whether [--help] was met. *)
Record Parsed := {
  given : list (string * string);
  extra : list string;
  help : bool;
}.

(** [opts.get(name)]: the last occurrence wins. *)
Definition consume_value (nm : string) (opts : list (string * string))
  : option string :=
  match filter (fun kv => String.eqb (fst kv) nm) opts with
  | [] => None
  | l => Some (snd (List.last l ("", "")))
  end.

(** [augment_usage_errors(ctx, param)]: a usage error raised inside gets
    the context and, for [BadParameter], the parameter, when it has none. *)
Definition augment_usage_errors {A} (c : Context) (p : option Param)
  (body : M A) : M A :=
  try_except body (fun e =>
    match e with
    | ClickUsage u =>
        Some (raise (ClickUsage
          {| cls := cls u; message := message u;
             param_hint :=
               match param_hint u, p with
               | None, Some q => if isinstance u BadParameter
                                 then Some (hint q) else None
               | h, _ => h
               end;
             param_type := param_type u; option_name := option_name u;
             ctx := match ctx u with
                    | None => Some c
                    | x => x
                    end;
             cmd := cmd u |}))
    | _ => None
    end).

(** [param.handle_parse_result(ctx, opts, args)] *)
Definition handle_parse_result (c : Context) (p : Param)
  (opts : list (string * string)) : M pyval :=
  augment_usage_errors c (Some p)
    (match consume_value (name p) opts with
     | Some raw => convert (type p) raw (hint p) c
     | None =>
         if required p
         then raise (ClickUsage
                {| cls := MissingParameter; message := ""; param_hint := Some (hint p);
                   param_type := kind p; option_name := None; ctx := Some c;
                   cmd := Some (ctx_command c) |})
         else ret VNone
     end).

(** [iter_params_for_processing]: the parameters met on the command line
    first, in that order, then the others as declared. *)
Fixpoint index_of (nm : string) (l : list string) : option nat :=
  match l with
  | [] => None
  | x :: l' => if String.eqb x nm then Some O
               else option_map S (index_of nm l')
  end.

Fixpoint insert_by (key : Param -> option nat) (p : Param)
  (l : list Param) : list Param :=
  match l with
  | [] => [p]
  | q :: l' =>
      match key p, key q with
      | Some i, Some j => if (i <? j)%nat then p :: l else q :: insert_by key p l'
      | Some _, None => p :: l
      | None, _ => q :: insert_by key p l'
      end
  end.

Definition iter_params_for_processing (order : list string)
  (ps : list Param) : list Param :=
  fold_left (fun acc p => insert_by (fun q => index_of (name q) order) p acc)
    ps [].

Fixpoint process_params (c : Context) (ps : list Param)
  (opts : list (string * string)) : M (list (string * pyval)) :=
  match ps with
  | [] => ret []
  | p :: ps' =>
      v <- handle_parse_result c p opts ;;
      rest <- process_params c ps' opts ;;
      ret ((name p, v) :: rest)
  end.

(** The callback of the [--help] option, which click adds to every
    command and processes before the other parameters: the help page is
    printed and the context exits. *)
Definition show_help (c : Context) (value : bool) : M unit :=
  if value
  then echo (help_page (ctx_command c)) ;; ctx_exit c 0
  else ret tt.

(** The message for the values that no parameter takes. *)
Definition unexpected_extra (args : list string) : string :=
  "Got unexpected extra argument"
  +:+ (if (length args =? 1)%nat then "" else "s")
  +:+ " (" +:+ json.join " " args +:+ ")".

(** [click.Command.make_context(info_name, args, parent)] for a command
    with parameters [ps]: a fresh context is made active while the
    command line is parsed and the parameters, in processing order, are
    converted; values that no parameter takes are an error. *)
Definition click_make_context (self : command) (ps : list Param)
  (args : UsageError + Parsed) : M Context :=
  let c := {| ctx_command := self; ctx_params := [] |} in
  with_context c
    match args with
    | inl e => raise (ClickUsage e)
    | inr a =>
        show_help c (help a) ;;
        vals <- process_params c
                  (iter_params_for_processing (map fst (given a)) ps) (given a) ;;
        match extra a with
        | [] => ret {| ctx_command := self; ctx_params := vals |}
        | x :: _ =>
            raise (ClickUsage
              {| cls := UsageError_; message := unexpected_extra (extra a);
                 param_hint := None; param_type := ""; option_name := None;
                 ctx := Some c; cmd := Some self |})
        end
    end.

(** ** [timer_cli/main.py] *)

(** how long to wait before giving up on requests to the API *)
Definition TIMEOUT : Z := 10.

(** [show_usage(cmd)]: show the relevant usage and exit. *)
Definition show_usage (cmd_ : command) : M unit :=
  c <- get_current_context ;;
  let formatter := "" in
  let formatter := formatter +:+ help_text cmd_ in
  let formatter := formatter +:+ options_text cmd_ in
  let formatter := formatter +:+ epilog_text cmd_ in
  echo (py.rstrip nl formatter) ;;
  ctx_exit c 0 ;;
  sys_exit 2.

(** [show_response(response)] *)
Definition show_response (response : Response) : M unit :=
  (if status_code response >=? 400
   then echo_err ("got response code " +:+ py.str_int (status_code response))
   else ret tt) ;;
  body <- response_json response ;;
  echo (json.dumps body).

(** [handle_requests_exception(e)] *)
Definition handle_requests_exception (e : exn) : M unit :=
  echo_err ("error in request: " +:+ exn_str e) ;;
  sys_exit 1.

(** [URL.convert(value, param, ctx)] for a [value] that is a string. *)
Definition URL_convert (value : string) (param : string) (c : Context) : M pyval :=
  match urllib_parse.urlparse value with
  | inl err => raise (ValueError err)
  | inr value =>
      (if String.eqb (urllib_parse.netloc value) ""
       then fail "incomplete URL" None None
       else ret tt) ;;
      (if negb (urllib_parse.str_in (urllib_parse.scheme value) ["http"; "https"])
       then fail ("invalid URL scheme (" +:+ urllib_parse.scheme value
                  +:+ "). Only HTTP URLs are allowed") (Some param) (Some c)
       else ret tt) ;;
      ret (VUrl value)
  end.

Definition URL : ParamType := {| type_name := "url"; convert := URL_convert |}.

(** [get_headers(token_store)]: assemble any needed headers that should go
    in all requests to the timer API, such as the access token. *)
Definition get_headers (token_store : option string) : M (gmap string string) :=
  access_token <- get_access_token token_store ;;
  ret {[ "Authorization" := "Bearer " +:+ access_token ]}.

(** The parameters that the decorators declare for each command. *)
Definition option_ (nm flag : string) (req : bool) (ty : ParamType) : Param :=
  {| name := nm; hint := "'" +:+ flag +:+ "'"; kind := "option";
     required := req; type := ty |}.

Definition params (self : command) : list Param :=
  match self with
  | cmd_submit =>
      [ option_ "name" "--name" true STRING;
        option_ "start" "--start" false DateTime;
        option_ "interval" "--interval" true INT;
        option_ "action_url" "--action-url" true URL;
        option_ "action_body" "--action-body" true STRING ]
  | cmd_status =>
      [ {| name := "job_id"; hint := "'JOB_ID'"; kind := "argument";
           required := true; type := FuncParamType_UUID |} ]
  | _ => []
  end.

(** [Command.make_context]: show the help message if a command is missing
    arguments.  The result is [None] where the Python method falls off its
    end. *)
Definition Command_make_context (self : command) (args : UsageError + Parsed)
  : M (option Context) :=
  try_except
    (c <- click_make_context self (params self) args ;; ret (Some c))
    (fun e =>
       match e with
       | ClickUsage e =>
           if isinstance e MissingParameter then
             Some (let e := {| cls := cls e; message := message e;
                               param_hint := param_hint e;
                               param_type := param_type e;
                               option_name := option_name e; ctx := ctx e;
                               cmd := None |} in
                   show e ;;
                   echo "" ;;
                   show_usage self ;;
                   ret None)
           else if isinstance e BadArgumentUsage || isinstance e BadOptionUsage
                   || isinstance e BadParameter then
             Some (let e := {| cls := cls e; message := message e;
                               param_hint := param_hint e;
                               param_type := param_type e;
                               option_name := option_name e; ctx := ctx e;
                               cmd := None |} in
                   show e ;;
                   echo "" ;;
                   show_usage self ;;
                   sys_exit (exit_code e))
           else None
       | _ => None
       end).

Definition jobs_url : string := "https://sandbox.timer.automate.globus.org/jobs/".

(** [submit]: submit a new job. *)
Definition submit (name_ : string) (start : option datetime) (interval : Z)
  (action_url : urllib_parse.ParseResult) (action_body : string) : M unit :=
  callback_body <-
    try_except
      (let callback_body := py.strip (String json.dquote "") (py.strip "'" action_body) in
       match json.loads body_room action_body with
       | inr callback_body => ret callback_body
       | inl e => raise (json_error action_body e)
       end)
      (fun e =>
         match e with
         | TypeError _ | ValueError _ =>
             Some (raise (ClickUsage
               {| cls := BadOptionUsage;
                  message := "--action-body must parse into valid JSON; got error: "
                             +:+ exn_str e;
                  param_hint := None; param_type := "";
                  option_name := Some "action-body"; ctx := None; cmd := None |}))
         | _ => None
         end) ;;
  let start := match start with
               | Some d => d
               | None => now
               end in
  let callback_url := urllib_parse.geturl action_url in
  let req_json :=
    json.Object
      [ ("name", json.Str name_);
        ("start", json.Str (isoformat start));
        ("interval", json.Int interval);
        ("callback_url", json.Str callback_url);
        ("callback_body", callback_body) ] in
  headers_ <- get_headers None ;;
  response <-
    try_except
      (r <- requests_post jobs_url req_json headers_ TIMEOUT ;; ret (Some r))
      (fun e =>
         match e with
         | RequestException _ => Some (handle_requests_exception e ;; ret None)
         | _ => None
         end) ;;
  match response with
  | Some response => show_response response
  | None => ret tt
  end.

(** [list]: list submitted jobs. *)
Definition list_ : M unit :=
  headers_ <- get_headers None ;;
  response <-
    try_except
      (r <- requests_get jobs_url headers_ TIMEOUT ;; ret (Some r))
      (fun e =>
         match e with
         | RequestException _ => Some (handle_requests_exception e ;; ret None)
         | _ => None
         end) ;;
  match response with
  | Some response => show_response response
  | None => ret tt
  end.

(** [status]: return the status of the job with the given ID. *)
Definition status (job_id : uuid.UUID) : M unit :=
  headers_ <- get_headers None ;;
  response <-
    try_except
      (r <- requests_get (jobs_url +:+ uuid.str job_id) headers_ TIMEOUT ;;
       ret (Some r))
      (fun e =>
         match e with
         | RequestException _ => Some (handle_requests_exception e ;; ret None)
         | _ => None
         end) ;;
  match response with
  | Some response => show_response response
  | None => ret tt
  end.

(** *** Dispatch *)

Definition param (nm : string) (c : Context) : pyval :=
  match filter (fun kv => String.eqb (fst kv) nm) (ctx_params c) with
  | (_, v) :: _ => v
  | [] => VNone
  end.

(** A callback together with its keyword arguments. *)
Inductive call :=
| call_submit (name_ : string) (start : option datetime) (interval : Z)
    (action_url : urllib_parse.ParseResult) (action_body : string)
| call_list
| call_status (job_id : uuid.UUID).

(** [**ctx.params]: the converted parameters, as the arguments of the
    callback of the command. *)
Definition bind_arguments (c : Context) : option call :=
  match ctx_command c with
  | cmd_submit =>
      match param "name" c, param "start" c, param "interval" c,
            param "action_url" c, param "action_body" c with
      | VStr n, VDateTime d, VInt i, VUrl u, VStr b =>
          Some (call_submit n (Some d) i u b)
      | VStr n, VNone, VInt i, VUrl u, VStr b => Some (call_submit n None i u b)
      | _, _, _, _, _ => None
      end
  | cmd_list => Some call_list
  | cmd_status =>
      match param "job_id" c with
      | VUuid u => Some (call_status u)
      | _ => None
      end
  | cmd_cli | cmd_job => None
  end.

Definition callback (k : call) : M unit :=
  match k with
  | call_submit n d i u b => submit n d i u b
  | call_list => list_
  | call_status u => status u
  end.

(** [command.invoke(ctx)]: the callback is called with the converted
    parameters as keyword arguments, inside the context. *)
Definition invoke (c : Context) : M unit :=
  augment_usage_errors c None
    (with_context c
       match bind_arguments c with
       | Some k => callback k
       | None => raise (TypeError "callback")
       end).

(** [cli()] for the command line [<prog> job <self> <args>], where [self]
    is one of the three job commands: the two groups are entered, the context of the command is built by its
    [make_context], and the command is invoked inside it. *)
Definition cli (self : command) (args : UsageError + Parsed) : M unit :=
  with_context {| ctx_command := cmd_cli; ctx_params := [] |}
    (with_context {| ctx_command := cmd_job; ctx_params := [] |}
       (sub_ctx <- Command_make_context self args ;;
        match sub_ctx with
        | Some c => with_context c (invoke c)
        | None => raise (OtherError "AttributeError: __enter__")
        end)).

(** What the interpreter prints for an uncaught exception. *)
Definition traceback (e : exn) : string :=
  "Traceback (most recent call last):" +:+ nl +:+ frames e.

(** [main()]: the process.  click runs [cli] in standalone mode: a normal
    return and [Exit] end the process with that code; a click exception
    that nobody handled is shown and ends it with its exit code; for
    [EOFError], [KeyboardInterrupt] and [Abort] click writes [Aborted!]
    and ends with status 1; a broken pipe ends with status 1 in silence;
    [SystemExit] carries its own code, and any other exception ends the
    process with status 1 after the interpreter has printed its trace. *)
Definition main (self : command) (args : UsageError + Parsed) : Z * World :=
  match cli self args initial with
  | (inr _, w) => (0, w)
  | (inl (Exit code), w) => (code, w)
  | (inl (SystemExit code), w) => (code, w)
  | (inl (ClickUsage e), w) => (exit_code e, snd (show e w))
  | (inl (ClickException m code), w) => (code, snd (echo_err ("Error: " +:+ m) w))
  | (inl (EOFError | KeyboardInterrupt), w) =>
      (1, snd ((echo_err "" ;; echo_err "Aborted!") w))
  | (inl Abort, w) => (1, snd (echo_err "Aborted!" w))
  | (inl BrokenPipe, w) => (1, w)
  | (inl e, w) => (1, set_stderr (stderr w ++ [traceback e]) w)
  end.

End Process.

Arguments M {py_float py_datetime} A.

(** ** Sample collaborators, for running the commands on concrete input *)

Module sample.

#[export] Instance sample_float : PyFloat :=
  {| float := string; float_of_str := fun s => s; float_repr := fun s => s |}.

(** Dates are kept as their text. *)
#[export] Instance sample_datetime : PyDateTime :=
  {| datetime := string;
     datetime_parse := fun s => if (String.length s =? 0)%nat then None else Some s;
     isoformat := fun s => s |}.

(** A Unicode database that knows the fullwidth and the Arabic-Indic
    digits, the spaces outside ASCII, and the decomposition of the
    account-of sign; the limit of CPython 3.11 on decimal literals. *)
#[export] Instance sample_interpreter : Interpreter :=
  {| todecimal := fun cp =>
       if (65296 <=? cp) && (cp <=? 65305) then cp - 65296
       else if (1632 <=? cp) && (cp <=? 1641) then cp - 1632
       else -1;
     isspace := fun cp =>
       (cp =? 133) || (cp =? 160) || (cp =? 5760)
       || ((8192 <=? cp) && (cp <=? 8202))
       || (cp =? 8232) || (cp =? 8233) || (cp =? 8239) || (cp =? 8287)
       || (cp =? 12288);
     nfkc := py.replace (json.utf8 8448) "a/c";
     int_max_str_digits := 4300 |}.

(** [urlparse] as CPython 3.8 has it. *)
#[export] Instance sample_urllib : urllib_parse.Urllib :=
  {| urllib_parse.urlparse := urllib_parse.urlparse_38 |}.

(** A token provider that hands out [abc] and a network that answers
    every request with [answer]. *)
Definition stub (answer : exn + Response) : Platform :=
  {| access_token := fun _ => inr "abc";
     send := fun _ => answer;
     now := "2020-06-01T12:00:00";
     help_text := fun c =>
       match c with
       | cmd_submit => "  Submit a new job." +:+ nl
       | cmd_list => "  List submitted jobs." +:+ nl
       | cmd_status => "  Return the status of the job with the given ID." +:+ nl
       | _ => ""
       end;
     options_text := fun _ => nl +:+ "Options:" +:+ nl +:+
                              "  --help  Show this message and exit." +:+ nl;
     epilog_text := fun _ => "";
     usage_line := fun c =>
       match c with
       | cmd_submit => "Usage: timer job submit [OPTIONS]"
       | cmd_list => "Usage: timer job list [OPTIONS]"
       | cmd_status => "Usage: timer job status [OPTIONS] JOB_ID"
       | _ => "Usage: timer [OPTIONS] COMMAND [ARGS]..."
       end;
     help_page := fun c =>
       match c with
       | cmd_list =>
           "Usage: timer job list [OPTIONS]" +:+ nl +:+ nl +:+
           "  List submitted jobs." +:+ nl +:+ nl +:+ "Options:" +:+ nl +:+
           "  --help  Show this message and exit."
       | cmd_status =>
           "Usage: timer job status [OPTIONS] JOB_ID" +:+ nl +:+ nl +:+
           "  Return the status of the job with the given ID." +:+ nl +:+ nl +:+
           "Options:" +:+ nl +:+ "  --help  Show this message and exit."
       | _ => "Usage: timer [OPTIONS] COMMAND [ARGS]..."
       end;
     command_path := fun c =>
       match c with
       | cmd_submit => "timer job submit"
       | cmd_list => "timer job list"
       | cmd_status => "timer job status"
       | cmd_job => "timer job"
       | cmd_cli => "timer"
       end;
     frames := fun e =>
       "  File " +:+ py.dq "main.py" +:+ ", line 242, in <module>" +:+ nl
       +:+ exn_str e +:+ nl;
     body_room := 960;
     response_room := 955 |}.

Definition created : exn + Response :=
  inr {| status_code := 201; text := ("{" +:+ py.dq "job_id" +:+ ": " +:+ py.dq "x" +:+ "}") |}.

Definition not_found : exn + Response :=
  inr {| status_code := 404; text := ("{" +:+ py.dq "error" +:+ ": " +:+ py.dq "not found" +:+ "}") |}.

Definition not_json : exn + Response :=
  inr {| status_code := 200; text := "<html>" |}.

Definition timed_out : exn + Response :=
  inl (RequestException "connection timed out").

(** A body with characters that [json.dumps] escapes: an accented
    letter, quotes, a backslash, a tab, the control character U+0001 and
    a character outside the basic plane. *)
Definition forbidden_body : string :=
  "{" +:+ py.dq "error" +:+ ": "
  +:+ py.dq ("caf" +:+ json.utf8 233 +:+ " \" +:+ py.dq "x\"
             +:+ " \\ \t \u0001 " +:+ json.utf8 119070)
  +:+ "}".

Definition forbidden : exn + Response :=
  inr {| status_code := 403; text := forbidden_body |}.

Definition bad_gateway : exn + Response :=
  inr {| status_code := 502; text := "<html><body>Bad Gateway</body></html>" |}.

(** The fullwidth form of a text made of digits. *)
Fixpoint fullwidth (s : string) : string :=
  match s with
  | EmptyString => EmptyString
  | String c s' => json.utf8 (65296 + (Z.of_N (N_of_ascii c) - 48)) +:+ fullwidth s'
  end.

(** As [stub], with a token provider that fails. *)
Definition no_token (answer : exn + Response) : Platform :=
  {| access_token := fun _ => inl (OtherError "AuthenticationError: not logged in");
     send := send (Platform := stub answer);
     now := now (Platform := stub answer);
     help_text := help_text (Platform := stub answer);
     options_text := options_text (Platform := stub answer);
     epilog_text := epilog_text (Platform := stub answer);
     usage_line := usage_line (Platform := stub answer);
     help_page := help_page (Platform := stub answer);
     command_path := command_path (Platform := stub answer);
     frames := frames (Platform := stub answer);
     body_room := body_room (Platform := stub answer);
     response_room := response_room (Platform := stub answer) |}.

End sample.

(** Every character of [s] satisfies [P]. *)
Fixpoint all_chars (P : ascii -> bool) (s : string) : bool :=
  match s with
  | EmptyString => true
  | String c s' => P c && all_chars P s'
  end.

(** The characters that [int(s, 16)] reads as a digit. *)
Definition is_hex (c : ascii) : bool :=
  match py.digit_val c with Some _ => true | None => false end.

(** A rendering of the sixteen digits that [int] reads back. *)
Definition renders (g : ascii -> ascii) : Prop :=
  forall d, 0 <= d < 16 -> py.digit_val (g (py.hex_chr d)) = Some d.

(** The characters of the hyphenated form of a UUID. *)
Definition is_uuid_chr (c : ascii) : bool := is_hex c || Ascii.eqb c "-".

(** ** The vocabulary of the properties *)

Section Vocabulary.
Context {py_float : PyFloat} {py_datetime : PyDateTime} {interp : Interpreter}
  {urllib : urllib_parse.Urllib} {platform : Platform}.

(** The usage text that [show_usage] prints for a command. *)
Definition usage_text (c : command) : string :=
  py.rstrip nl ((help_text c +:+ options_text c) +:+ epilog_text c).

(** The outcome of parsing and converting the command line: building the
    context touches neither the streams nor the network. *)
Definition parse_outcome (self : command) (args : UsageError + Parsed)
  : exn + Context :=
  fst (click_make_context self (params self) args initial).

(** The command line is accepted and leads to the call [k]. *)
Definition accepted (self : command) (args : UsageError + Parsed) : option call :=
  match parse_outcome self args with
  | inr c => bind_arguments c
  | inl _ => None
  end.

(** The call reaches the network: for [submit], the body is JSON. *)
Definition sends_request (k : call) : Prop :=
  match k with
  | call_submit _ _ _ _ b => exists v, json.loads body_room b = inr v
  | _ => True
  end.

(** A line of output. *)
Definition line (s : string) : string := s +:+ nl.

(** [sub] occurs in [s]. *)
Definition Contains (sub s : string) : Prop :=
  exists pre post, s = pre +:+ sub +:+ post.

(** A computation that neither reads nor writes the world. *)
Definition stateless {A} (m : M A) : Prop :=
  exists r, forall w, m w = (r, w).

(** A parameter type that converts without effect. *)
Definition pure_type (t : ParamType) : Prop :=
  forall v p c, stateless (convert t v p c).

(** The member [k] of a JSON object. *)
Definition member (k : string) (v : json.value) : option json.value :=
  match v with
  | json.Object ms =>
      match filter (fun kv => String.eqb (fst kv) k) ms with
      | (_, x) :: _ => Some x
      | [] => None
      end
  | _ => None
  end.

(** The command line [job submit --name demo --interval 60
    --action-url https://example.org/run --action-body <body>]. *)
Definition submit_args (body : string) : UsageError + Parsed :=
  inr {| given := [("name", "demo"); ("interval", "60");
                   ("action_url", "https://example.org/run");
                   ("action_body", body)];
         extra := []; help := false |}.

(** [job status <job_id>] *)
Definition status_args (job_id : string) : UsageError + Parsed :=
  inr {| given := [("job_id", job_id)]; extra := []; help := false |}.

(** [job list] *)
Definition list_args : UsageError + Parsed :=
  inr {| given := []; extra := []; help := false |}.

(** An exception that click's standalone mode lets through to the
    interpreter: neither an exit, nor a click exception, nor one of those
    that click turns into [Aborted!] or into a silent exit. *)
Definition crashes (e : exn) : bool :=
  match e with
  | SystemExit _ | Exit _ | ClickUsage _ | ClickException _ _ | Abort
  | EOFError | KeyboardInterrupt | BrokenPipe => false
  | _ => true
  end.

(** An exception that carries no exit code of its own. *)
Definition ordinary (e : exn) : bool :=
  match e with
  | SystemExit _ | Exit _ | ClickException _ _ => false
  | _ => true
  end.

(** [--help] is on the command line. *)
Definition asks_help (args : UsageError + Parsed) : bool :=
  match args with
  | inr a => help a
  | inl _ => false
  end.

(** Whatever [m] raises is ordinary. *)
Definition raises_ordinary {A} (m : M A) : Prop :=
  forall w e, fst (m w) = inl e -> ordinary e = true.

(** The value of [--start]: absent, or a text that [click.DateTime()]
    converts; [None] when the text is given and does not convert. *)
Definition parse_start (s : option string) : option (option datetime) :=
  match s with
  | None => Some None
  | Some x =>
      match datetime_parse x with
      | Some d => Some (Some d)
      | None => None
      end
  end.

(** The command line [job submit --name <n> [--start <s>] --interval <it>
    --action-url <v> --action-body <b>]. *)
Definition submit_line (n : string) (s : option string) (it v b : string)
  : UsageError + Parsed :=
  inr {| given := ([("name", n)] ++
                   match s with
                   | Some x => [("start", x)]
                   | None => []
                   end ++
                   [("interval", it); ("action_url", v); ("action_body", b)])%list;
         extra := []; help := false |}.

End Vocabulary.

(** ** Facts about strings and UUIDs *)

Lemma append_cons c s t : String c s +:+ t = String c (s +:+ t).
Proof. reflexivity. Qed.

Lemma append_empty_r (s : string) : s +:+ "" = s.
Proof.
  induction s as [|c s IH]; [done|]. by rewrite append_cons, IH.
Qed.

Lemma append_assoc (s1 s2 s3 : string) : (s1 +:+ s2) +:+ s3 = s1 +:+ (s2 +:+ s3).
Proof.
  induction s1 as [|c s1 IH]; [done|]. by rewrite !append_cons, IH.
Qed.

Lemma length_append s t :
  String.length (s +:+ t) = (String.length s + String.length t)%nat.
Proof. induction s as [|c s IH]; [done|]. rewrite append_cons. cbn. by rewrite IH. Qed.

Lemma all_chars_append P s t :
  all_chars P (s +:+ t) = all_chars P s && all_chars P t.
Proof.
  induction s as [|c s IH]; [done|]. rewrite append_cons. cbn.
  by rewrite IH, andb_assoc.
Qed.

Lemma all_chars_impl (P Q : ascii -> bool) s :
  (forall c, P c = true -> Q c = true) -> all_chars P s = true -> all_chars Q s = true.
Proof.
  intros HPQ. induction s as [|c s IH]; [done|]. cbn.
  intros [Hc Hs]%andb_prop. by rewrite (HPQ c Hc), IH.
Qed.

Lemma string_take_drop n s : py.take n s +:+ py.drop n s = s.
Proof.
  revert s. induction n as [|n IH]; intros [|c s]; try done.
  cbn [py.take py.drop]. by rewrite append_cons, IH.
Qed.

Lemma string_drop_drop n m s : py.drop n (py.drop m s) = py.drop (m + n) s.
Proof.
  revert s. induction m as [|m IH]; intros s; [done|].
  destruct s as [|c s]; [by destruct n|]. apply IH.
Qed.

Lemma all_chars_take P n s : all_chars P s = true -> all_chars P (py.take n s) = true.
Proof.
  revert s. induction n as [|n IH]; intros [|c s]; try done. cbn.
  intros [Hc Hs]%andb_prop. by rewrite Hc, IH.
Qed.

Lemma all_chars_drop P n s : all_chars P s = true -> all_chars P (py.drop n s) = true.
Proof.
  revert s. induction n as [|n IH]; intros [|c s]; try done. cbn.
  intros [Hc Hs]%andb_prop. by apply IH.
Qed.

(** replace *)
Lemma replace_go_absent a old new s :
  all_chars (fun c => negb (Ascii.eqb a c)) s = true ->
  py.replace_go (String a old) new O s = s.
Proof.
  induction s as [|c s IH]; [done|]. cbn [all_chars].
  intros [Hc Hs]%andb_prop. cbn [py.replace_go py.startswith].
  apply negb_true_iff in Hc. rewrite Hc. cbn. by rewrite IH.
Qed.

Lemma replace_absent a old new s :
  all_chars (fun c => negb (Ascii.eqb a c)) s = true ->
  py.replace (String a old) new s = s.
Proof. apply replace_go_absent. Qed.

Lemma replace_hyphen_skip p t :
  all_chars (fun c => negb (Ascii.eqb "-" c)) p = true ->
  py.replace_go "-" "" O (p +:+ t) = p +:+ py.replace_go "-" "" O t.
Proof.
  induction p as [|c p IH]; [done|]. cbn [all_chars].
  intros [Hc Hs]%andb_prop. rewrite !append_cons. cbn [py.replace_go py.startswith].
  apply negb_true_iff in Hc. rewrite Hc. cbn. by rewrite IH.
Qed.

(** strip *)
Lemma rstrip_absent chars s :
  all_chars (fun c => negb (py.chr_in c chars)) s = true -> py.rstrip chars s = s.
Proof.
  induction s as [|c s IH]; [done|]. cbn [all_chars].
  intros [Hc Hs]%andb_prop. cbn [py.rstrip]. rewrite (IH Hs).
  apply negb_true_iff in Hc. rewrite Hc. by destruct s.
Qed.

Lemma lstrip_absent chars s :
  all_chars (fun c => negb (py.chr_in c chars)) s = true -> py.lstrip chars s = s.
Proof.
  destruct s as [|c s]; [done|]. cbn [all_chars].
  intros [Hc Hs]%andb_prop. cbn [py.lstrip].
  apply negb_true_iff in Hc. by rewrite Hc.
Qed.

Lemma strip_absent chars s :
  all_chars (fun c => negb (py.chr_in c chars)) s = true -> py.strip chars s = s.
Proof. intros Hs. unfold py.strip. by rewrite (lstrip_absent _ _ Hs), rstrip_absent. Qed.

Lemma rstrip_append chars s t :
  py.rstrip chars t = "" -> py.rstrip chars (s +:+ t) = py.rstrip chars s.
Proof.
  intros Ht. induction s as [|c s IH]; [done|].
  rewrite append_cons. cbn [py.rstrip]. by rewrite IH.
Qed.

Lemma is_hex_eqb c a :
  is_hex c = true -> is_hex a = false ->
  Ascii.eqb c a = false /\ Ascii.eqb a c = false.
Proof.
  intros Hc Ha. split; apply Ascii.eqb_neq; intros ->; congruence.
Qed.

Lemma map_str_append g s t :
  py.map_str g (s +:+ t) = py.map_str g s +:+ py.map_str g t.
Proof.
  induction s as [|c s IH]; [done|]. rewrite !append_cons. cbn. by rewrite IH.
Qed.

Lemma length_map_str g s : String.length (py.map_str g s) = String.length s.
Proof. induction s as [|c s IH]; [done|]. cbn. by rewrite IH. Qed.

Lemma length_hex_fixed w n : String.length (py.hex_fixed w n) = w.
Proof.
  revert n. induction w as [|w IH]; intros n; [done|]. cbn [py.hex_fixed].
  rewrite length_append, IH. cbn. lia.
Qed.

Lemma renders_lower : renders (fun c => c).
Proof.
  intros d Hd.
  assert (d = 0 \/ d = 1 \/ d = 2 \/ d = 3 \/ d = 4 \/ d = 5 \/ d = 6 \/ d = 7 \/
          d = 8 \/ d = 9 \/ d = 10 \/ d = 11 \/ d = 12 \/ d = 13 \/ d = 14 \/ d = 15)
    as H by lia.
  repeat (destruct H as [->|H]; [reflexivity|]). by subst.
Qed.

Lemma renders_upper : renders py.upper_chr.
Proof.
  intros d Hd.
  assert (d = 0 \/ d = 1 \/ d = 2 \/ d = 3 \/ d = 4 \/ d = 5 \/ d = 6 \/ d = 7 \/
          d = 8 \/ d = 9 \/ d = 10 \/ d = 11 \/ d = 12 \/ d = 13 \/ d = 14 \/ d = 15)
    as H by lia.
  repeat (destruct H as [->|H]; [reflexivity|]). by subst.
Qed.

Lemma map_str_id s : py.map_str (fun c => c) s = s.
Proof. induction s as [|c s IH]; [done|]. cbn. by rewrite IH. Qed.

Lemma hex_fixed_is_hex g w n :
  renders g -> all_chars is_hex (py.map_str g (py.hex_fixed w n)) = true.
Proof.
  intros Hg. revert n. induction w as [|w IH]; intros n; [done|].
  cbn [py.hex_fixed]. rewrite map_str_append, all_chars_append, IH. cbn.
  unfold is_hex. rewrite Hg; [done|]. apply Z.mod_pos_bound. lia.
Qed.

Lemma int_digits_hex g w :
  renders g ->
  forall n p acc rest,
    0 <= n < 16 ^ Z.of_nat w ->
    py.int_digits 16 p acc (py.map_str g (py.hex_fixed w n) +:+ rest)
    = py.int_digits 16 (p || (0 <? w)%nat) (acc * 16 ^ Z.of_nat w + n) rest.
Proof.
  intros Hg. induction w as [|w IH]; intros n p acc rest Hn.
  - cbn in Hn. assert (n = 0) as -> by lia. cbn [py.hex_fixed py.map_str].
    rewrite orb_false_r. change ("" +:+ rest) with rest. f_equal. cbn. lia.
  - cbn [py.hex_fixed]. rewrite map_str_append, append_assoc.
    rewrite Nat2Z.inj_succ, Z.pow_succ_r in Hn by lia.
    rewrite IH by (split; [apply Z.div_pos; lia | apply Z.div_lt_upper_bound; lia]).
    cbn [py.map_str]. rewrite append_cons. change ("" +:+ rest) with rest.
    cbn [py.int_digits].
    assert (Hd : 0 <= n mod 16 < 16) by (apply Z.mod_pos_bound; lia).
    pose proof (Hg _ Hd) as Hv.
    assert (Hx : is_hex (g (py.hex_chr (n mod 16))) = true)
      by (unfold is_hex; by rewrite Hv).
    destruct (is_hex_eqb _ "_" Hx eq_refl) as [-> _].
    rewrite Hv. replace (n mod 16 <? 16) with true by lia.
    rewrite orb_true_r. f_equal.
    rewrite Nat2Z.inj_succ, Z.pow_succ_r by lia.
    pose proof (Z.div_mod n 16). lia.
Qed.

(** Characters that no digit is equal to. *)
Lemma hex_avoids (avoid : ascii -> bool) s :
  (forall c, is_hex c = true -> avoid c = false) ->
  all_chars is_hex s = true ->
  all_chars (fun c => negb (avoid c)) s = true.
Proof.
  intros Hav. apply all_chars_impl. intros c Hc. by rewrite (Hav c Hc).
Qed.

Lemma is_hex_ascii c : is_hex c = true -> (N_of_ascii c <? 128)%N = true.
Proof.
  intros H. destruct c as [[] [] [] [] [] [] [] []]; try reflexivity;
    discriminate H.
Qed.

Lemma hex_isascii s : all_chars is_hex s = true -> py.isascii s = true.
Proof.
  induction s as [|c s IH]; [done|]. cbn [all_chars py.isascii].
  intros [Hc Hs]%andb_prop. by rewrite (is_hex_ascii c Hc), IH.
Qed.

Lemma isascii_len s : py.isascii s = true -> py.len s = String.length s.
Proof.
  induction s as [|c s IH]; [done|]. cbn [py.isascii py.len String.length].
  intros [Hc Hs]%andb_prop. rewrite (IH Hs).
  unfold py.is_cont. apply N.ltb_lt in Hc.
  replace (128 <=? N_of_ascii c)%N with false by (symmetry; apply N.leb_gt; lia).
  reflexivity.
Qed.

Section UuidFacts.
Context {interp : Interpreter}.

Lemma hex_not_space c : is_hex c = true -> py.chr_in c py.whitespace = false.
Proof.
  intros Hc. unfold py.chr_in. cbn.
  repeat match goal with
  | |- context [Ascii.eqb c ?a] =>
      rewrite (proj1 (is_hex_eqb c a Hc eq_refl))
  end. done.
Qed.

Lemma hex_not_brace c : is_hex c = true -> py.chr_in c "{}" = false.
Proof.
  intros Hc. unfold py.chr_in. cbn.
  repeat match goal with
  | |- context [Ascii.eqb c ?a] =>
      rewrite (proj1 (is_hex_eqb c a Hc eq_refl))
  end. done.
Qed.

Lemma int_of_str_hex g n :
  renders g -> 0 <= n < 2 ^ 128 ->
  py.int_of_str 16 (py.map_str g (py.hex_fixed 32 n)) = Some n.
Proof.
  intros Hg Hn. unfold py.int_of_str, py.transform.
  pose proof (hex_fixed_is_hex g 32 n Hg) as Hhex.
  rewrite (hex_isascii _ Hhex). change (16 =? 10) with false. cbn [andb].
  rewrite strip_absent by (apply hex_avoids; [apply hex_not_space | done]).
  pose proof (int_digits_hex g 32 Hg n false 0 "" Hn) as Hd.
  rewrite append_empty_r in Hd.
  pose proof (length_hex_fixed 32 n) as Hlen.
  rewrite <- (length_map_str g) in Hlen.
  destruct (py.map_str g (py.hex_fixed 32 n)) as [|c1 [|c2 h]]; try discriminate.
  cbn [all_chars] in Hhex.
  apply andb_prop in Hhex as [H1 [H2 _]%andb_prop].
  unfold py.split_sign.
  destruct (is_hex_eqb c1 "-" H1 eq_refl) as [-> _].
  destruct (is_hex_eqb c1 "+" H1 eq_refl) as [-> _].
  unfold py.strip_prefix. cbn [py.startswith].
  destruct (is_hex_eqb c2 "x" H2 eq_refl) as [_ ->].
  destruct (is_hex_eqb c2 "X" H2 eq_refl) as [_ ->].
  rewrite !andb_false_r. cbn [orb andb].
  rewrite Hd. cbn. f_equal. lia.
Qed.

Lemma map_str_take g n s : py.map_str g (py.take n s) = py.take n (py.map_str g s).
Proof. revert s. induction n as [|n IH]; intros [|c s]; try done. cbn. by rewrite IH. Qed.

Lemma map_str_drop g n s : py.map_str g (py.drop n s) = py.drop n (py.map_str g s).
Proof. revert s. induction n as [|n IH]; intros [|c s]; try done. cbn. by rewrite IH. Qed.

Lemma upper_hyphenate h : py.upper (uuid.hyphenate h) = uuid.hyphenate (py.upper h).
Proof.
  unfold py.upper, uuid.hyphenate.
  by rewrite !map_str_append, !map_str_take, !map_str_drop.
Qed.

Lemma all_chars_hyphenate P h :
  P "-"%char = true -> all_chars P h = true -> all_chars P (uuid.hyphenate h) = true.
Proof.
  intros Hp Hh. unfold uuid.hyphenate. rewrite !all_chars_append.
  rewrite !all_chars_take by auto using all_chars_drop.
  rewrite all_chars_drop by done. cbn. by rewrite Hp.
Qed.

Lemma hyphenate_chars h :
  all_chars is_hex h = true -> all_chars is_uuid_chr (uuid.hyphenate h) = true.
Proof.
  intros Hh. apply all_chars_hyphenate; [done|].
  revert Hh. apply all_chars_impl. intros c Hc. unfold is_uuid_chr. by rewrite Hc.
Qed.

Lemma unhyphenate h :
  all_chars is_hex h = true -> py.replace "-" "" (uuid.hyphenate h) = h.
Proof.
  intros Hh.
  assert (Hno : forall s, all_chars is_hex s = true ->
                  all_chars (fun c => negb (Ascii.eqb "-" c)) s = true).
  { intros s. apply hex_avoids. intros c Hc. apply (is_hex_eqb c "-" Hc eq_refl). }
  unfold py.replace, uuid.hyphenate.
  repeat (rewrite replace_hyphen_skip by auto using all_chars_take, all_chars_drop;
          change (py.replace_go "-" "" 0 ("-" +:+ ?t)) with (py.replace_go "-" "" 0 t)).
  rewrite replace_go_absent by auto using all_chars_drop.
  replace (py.drop 20 h) with (py.drop 4 (py.drop 16 h))
    by apply string_drop_drop.
  rewrite string_take_drop.
  replace (py.drop 16 h) with (py.drop 4 (py.drop 12 h))
    by apply string_drop_drop.
  rewrite string_take_drop.
  replace (py.drop 12 h) with (py.drop 4 (py.drop 8 h))
    by apply string_drop_drop.
  rewrite string_take_drop.
  apply string_take_drop.
Qed.

Lemma of_str_from_hex g n s :
  renders g -> 0 <= n < 2 ^ 128 ->
  uuid.normalize s = py.map_str g (py.hex_fixed 32 n) ->
  uuid.of_str s = Some {| uuid.int := n |}.
Proof.
  intros Hg Hn Hs. unfold uuid.of_str. rewrite Hs.
  rewrite isascii_len by (apply hex_isascii, hex_fixed_is_hex, Hg).
  rewrite length_map_str, length_hex_fixed. cbn [Nat.eqb negb].
  rewrite (int_of_str_hex g n Hg Hn).
  replace ((0 <=? n) && (n <? 2 ^ 128)) with true by lia. reflexivity.
Qed.

Lemma uuid_chr_not_u c :
  all_chars is_uuid_chr c = true ->
  all_chars (fun x => negb (Ascii.eqb "u" x)) c = true.
Proof.
  apply all_chars_impl. intros x [Hx|Hx]%orb_prop.
  - by rewrite (proj2 (is_hex_eqb x "u" Hx eq_refl)).
  - apply Ascii.eqb_eq in Hx as ->. reflexivity.
Qed.

Lemma uuid_chr_not_brace c :
  all_chars is_uuid_chr c = true ->
  all_chars (fun x => negb (py.chr_in x "{}")) c = true.
Proof.
  apply all_chars_impl. intros x [Hx|Hx]%orb_prop.
  - by rewrite hex_not_brace.
  - apply Ascii.eqb_eq in Hx as ->. reflexivity.
Qed.

(** A text made of digits and hyphens goes through the first three steps
    of [uuid.UUID] unchanged. *)
Lemma uuid_chars_kept c :
  all_chars is_uuid_chr c = true ->
  py.strip "{}" (py.replace "uuid:" "" (py.replace "urn:" "" c)) = c.
Proof.
  intros Hc. pose proof (uuid_chr_not_u _ Hc) as Hu.
  rewrite (replace_absent "u" "rn:" "" c Hu), (replace_absent "u" "uid:" "" c Hu).
  apply strip_absent. by apply uuid_chr_not_brace.
Qed.

Lemma of_str_range s u : uuid.of_str s = Some u -> 0 <= uuid.int u < 2 ^ 128.
Proof.
  unfold uuid.of_str. destruct (negb _); [done|].
  destruct (py.int_of_str 16 _) as [n|]; [|done].
  destruct ((0 <=? n) && (n <? 2 ^ 128)) eqn:Hn; [|done].
  intros [= <-]. cbn. lia.
Qed.

Lemma hyphenate_nonempty h : exists c t, uuid.hyphenate h = String c t.
Proof.
  unfold uuid.hyphenate. destruct (py.take 8 h) as [|c t]; [by eexists _, _|].
  rewrite append_cons. by eexists _, _.
Qed.

(** What [normalize] leaves of the hyphenated form of 32 digits, bare,
    between braces, and after [urn:uuid:]; and of the digits themselves. *)
Lemma normalize_hyphenate h :
  all_chars is_hex h = true -> uuid.normalize (uuid.hyphenate h) = h.
Proof.
  intros Hh. unfold uuid.normalize.
  rewrite uuid_chars_kept by (apply hyphenate_chars; exact Hh).
  apply unhyphenate; exact Hh.
Qed.

Lemma normalize_braces h :
  all_chars is_hex h = true ->
  uuid.normalize ("{" +:+ uuid.hyphenate h +:+ "}") = h.
Proof.
  intros Hh. pose proof (hyphenate_chars _ Hh) as Hc.
  pose proof (uuid_chr_not_u _ Hc) as Hnu.
  pose proof (uuid_chr_not_brace _ Hc) as Hnb.
  destruct (hyphenate_nonempty h) as (c & t & Heq).
  pose proof (unhyphenate _ Hh) as Hun.
  revert Heq Hnu Hnb Hun. generalize (uuid.hyphenate h) as C.
  intros C Heq Hnu Hnb Hun.
  unfold uuid.normalize.
  assert (Hu' : all_chars (fun x => negb (Ascii.eqb "u" x)) ("{" +:+ C +:+ "}") = true).
  { rewrite (append_cons "{" "" (C +:+ "}")). cbn [all_chars].
    rewrite (all_chars_append _ C "}"), Hnu. reflexivity. }
  rewrite (replace_absent "u" "rn:" "" _ Hu'), (replace_absent "u" "uid:" "" _ Hu').
  unfold py.strip. rewrite (append_cons "{" "" (C +:+ "}")).
  assert (py.lstrip "{}" (String "{" ("" +:+ C +:+ "}")) = C +:+ "}") as ->.
  { cbn [py.lstrip]. change (py.chr_in "{" "{}") with true. cbv iota.
    change ("" +:+ C +:+ "}") with (C +:+ "}").
    destruct C as [|c' t']; [discriminate Heq|].
    rewrite append_cons. cbn [all_chars] in Hnb. apply andb_prop in Hnb as [Hb _].
    apply negb_true_iff in Hb. cbn [py.lstrip]. rewrite Hb. reflexivity. }
  rewrite (rstrip_append "{}" C "}") by reflexivity.
  rewrite (rstrip_absent "{}" C Hnb). exact Hun.
Qed.

Lemma normalize_urn h :
  all_chars is_hex h = true ->
  uuid.normalize ("urn:uuid:" +:+ uuid.hyphenate h) = h.
Proof.
  intros Hh. rewrite <- (normalize_hyphenate h Hh) at 2.
  generalize (uuid.hyphenate h) as C. intros C. reflexivity.
Qed.

Lemma normalize_digits h : all_chars is_hex h = true -> uuid.normalize h = h.
Proof.
  intros Hh. unfold uuid.normalize.
  rewrite uuid_chars_kept.
  - apply replace_absent. revert Hh. apply hex_avoids.
    intros c Hx. apply (is_hex_eqb c "-" Hx eq_refl).
  - revert Hh. apply all_chars_impl. intros c Hx. unfold is_uuid_chr.
    rewrite Hx. reflexivity.
Qed.

(** The spellings of a UUID are read back as that UUID. *)
Lemma spellings_parse u s :
  0 <= uuid.int u < 2 ^ 128 -> In s (uuid.spellings u) -> uuid.of_str s = Some u.
Proof.
  intros Hu Hin. destruct u as [n]. cbn [uuid.int] in Hu.
  pose proof (hex_fixed_is_hex (fun c => c) 32 n renders_lower) as Hh.
  pose proof (hex_fixed_is_hex py.upper_chr 32 n renders_upper) as Hup.
  rewrite map_str_id in Hh.
  unfold uuid.spellings, uuid.str in Hin. cbn [uuid.int In] in Hin.
  destruct Hin as [<-|[<-|[<-|[<-|[<-|[]]]]]].
  - apply (of_str_from_hex (fun c => c) n _ renders_lower Hu).
    rewrite map_str_id. exact (normalize_hyphenate _ Hh).
  - apply (of_str_from_hex py.upper_chr n _ renders_upper Hu).
    rewrite upper_hyphenate. exact (normalize_hyphenate _ Hup).
  - apply (of_str_from_hex (fun c => c) n _ renders_lower Hu).
    rewrite map_str_id. exact (normalize_braces _ Hh).
  - apply (of_str_from_hex (fun c => c) n _ renders_lower Hu).
    rewrite map_str_id. exact (normalize_urn _ Hh).
  - apply (of_str_from_hex (fun c => c) n _ renders_lower Hu).
    rewrite map_str_id. exact (normalize_digits _ Hh).
Qed.

End UuidFacts.

(** ** Properties *)

(** Unfolds the commands down to functions on the world. *)
Ltac run_monad :=
  unfold invoke, augment_usage_errors, with_context, try_except, callback,
    submit, list_, status, get_headers, get_access_token, requests_post,
    requests_get, requests_send, show_response, response_json,
    handle_requests_exception, sys_exit, echo, echo_err, bind, ret, raise.

(** Splits an exception into its classes, a usage error into its class
    and the presence of its context. *)
Ltac crush_exn e :=
  destruct e as [| |[[] ? ? ? ? [] ?]| | | | | | | | | |]; cbn.

Section Properties.
Context {py_float : PyFloat} {py_datetime : PyDateTime} {interp : Interpreter}
  {urllib : urllib_parse.Urllib} {platform : Platform}.

Lemma stateless_ret {A} (a : A) : stateless (ret a).
Proof. by exists (inr a). Qed.

Lemma stateless_raise {A} (e : exn) : stateless (@raise _ _ A e).
Proof. by exists (inl e). Qed.

Lemma stateless_bind {A B} (m : M A) (k : A -> M B) :
  stateless m -> (forall a, stateless (k a)) -> stateless (bind m k).
Proof.
  intros [r Hr] Hk. destruct r as [e|a].
  - exists (inl e). intros w. unfold bind. by rewrite Hr.
  - destruct (Hk a) as [r' Hr']. exists r'. intros w. unfold bind.
    by rewrite Hr, Hr'.
Qed.

Lemma stateless_try_except {A} (m : M A) (h : exn -> option (M A)) :
  stateless m -> (forall e k, h e = Some k -> stateless k) ->
  stateless (try_except m h).
Proof.
  intros [r Hr] Hh. destruct r as [e|a].
  - destruct (h e) as [k|] eqn:He.
    + destruct (Hh e k He) as [r' Hr']. exists r'. intros w.
      unfold try_except. by rewrite Hr, He, Hr'.
    + exists (inl e). intros w. unfold try_except. by rewrite Hr, He.
  - exists (inr a). intros w. unfold try_except. by rewrite Hr.
Qed.

Lemma stateless_fail {A} (m : string) p c : stateless (@fail _ _ A m p c).
Proof. apply stateless_raise. Qed.

Lemma stateless_URL_convert value p c : stateless (URL_convert value p c).
Proof.
  unfold URL_convert. destruct (urllib_parse.urlparse value) as [err|r].
  - apply stateless_raise.
  - apply stateless_bind.
    + destruct (String.eqb _ _); [apply stateless_fail | apply stateless_ret].
    + intros _. apply stateless_bind.
      * destruct (negb _); [apply stateless_fail | apply stateless_ret].
      * intros _. apply stateless_ret.
Qed.

Lemma pure_params (self : command) : Forall (fun p => pure_type (type p)) (params self).
Proof.
  destruct self; repeat constructor; intros v p c; cbn.
  - apply stateless_ret.
  - destruct (datetime_parse v); [apply stateless_ret | apply stateless_fail].
  - destruct (py.int_of_str 10 v); [apply stateless_ret | apply stateless_fail].
  - apply stateless_URL_convert.
  - apply stateless_ret.
  - destruct (uuid.of_str v); [apply stateless_ret | apply stateless_fail].
Qed.

Lemma stateless_handle_parse_result c p opts :
  pure_type (type p) -> stateless (handle_parse_result c p opts).
Proof.
  intros Hp. unfold handle_parse_result, augment_usage_errors.
  apply stateless_try_except.
  - destruct (consume_value _ _); [apply Hp|].
    destruct (required p); [apply stateless_raise | apply stateless_ret].
  - intros e k Hk. destruct e; try discriminate. injection Hk as <-.
    apply stateless_raise.
Qed.

Lemma stateless_process_params c ps opts :
  Forall (fun p => pure_type (type p)) ps -> stateless (process_params c ps opts).
Proof.
  induction 1 as [|p ps Hp _ IH]; cbn.
  - apply stateless_ret.
  - apply stateless_bind; [by apply stateless_handle_parse_result|].
    intros v. apply stateless_bind; [exact IH|]. intros r. apply stateless_ret.
Qed.

Lemma Forall_insert_by (P : Param -> Prop) key p l :
  P p -> Forall P l -> Forall P (insert_by key p l).
Proof.
  intros Hp. induction 1 as [|q l Hq Hl IH]; cbn [insert_by].
  - by constructor.
  - destruct (key p) as [i|], (key q) as [j|]; try destruct (i <? j)%nat;
      auto using Forall.
Qed.

Lemma Forall_iter_params (P : Param -> Prop) order ps :
  Forall P ps -> Forall P (iter_params_for_processing order ps).
Proof.
  unfold iter_params_for_processing. generalize (@nil Param) (Forall_nil P).
  intros acc Hacc H. revert acc Hacc.
  induction H as [|p ps Hp _ IH]; intros acc Hacc; cbn; [done|].
  apply IH. by apply Forall_insert_by.
Qed.

Lemma set_contexts_id w : set_contexts (contexts w) w = w.
Proof. by destruct w. Qed.

(** With [--help] on the command line, click prints the help page and
    leaves [make_context] through [ctx.exit()], whatever else the command
    line holds. *)
Lemma click_make_context_help self a w :
  help a = true ->
  click_make_context self (params self) (inr a) w =
    (inl (Exit 0), set_stdout (stdout w ++ [line (help_page self)]) w).
Proof.
  intros Hh. unfold click_make_context, with_context, bind, show_help.
  rewrite Hh. by destruct w.
Qed.

Lemma asks_help_outcome self args :
  asks_help args = true -> parse_outcome self args = inl (Exit 0).
Proof.
  destruct args as [e|a]; [done|]. cbn. intros Hh.
  unfold parse_outcome. by rewrite click_make_context_help.
Qed.

(** Without it, building the context of a command leaves the world as it
    was. *)
Lemma click_make_context_pure self args w :
  asks_help args = false ->
  click_make_context self (params self) args w = (parse_outcome self args, w).
Proof.
  intros Hh.
  assert (Hs : exists r, forall w,
             click_make_context self (params self) args w = (r, w)).
  { unfold click_make_context, with_context.
    set (c := {| ctx_command := self; ctx_params := [] |}).
    lazymatch goal with
    | |- exists r, forall w, (let '(r0, w') := ?b _ in _) = _ =>
        assert (Hb : stateless b)
    end.
    { destruct args as [e|a]; [apply stateless_raise|].
      cbn in Hh. rewrite Hh. apply stateless_bind; [apply stateless_ret|].
      intros _. apply stateless_bind.
      - apply stateless_process_params, Forall_iter_params, pure_params.
      - intros vals. destruct (extra a); [apply stateless_ret | apply stateless_raise]. }
    destruct Hb as [r Hr]. exists r. intros w0. rewrite Hr. cbn.
    by destruct w0. }
  destruct Hs as [r Hr]. unfold parse_outcome. by rewrite !Hr.
Qed.

(** An outcome other than the exit of the help page tells that [--help]
    was not given. *)
Lemma outcome_no_help self args r :
  parse_outcome self args = r -> r <> inl (Exit 0) -> asks_help args = false.
Proof.
  intros Hp Hr. destruct (asks_help args) eqn:Hh; [|done].
  rewrite (asks_help_outcome _ _ Hh) in Hp. by subst.
Qed.

Lemma click_make_context_outcome self args r w :
  parse_outcome self args = r -> r <> inl (Exit 0) ->
  click_make_context self (params self) args w = (r, w).
Proof.
  intros Hp Hr. rewrite click_make_context_pure by eauto using outcome_no_help.
  by rewrite Hp.
Qed.

(** An accepted command line reaches [invoke] with the context that
    [make_context] built, inside the contexts of the two groups. *)
Lemma cli_accepted self args k :
  accepted self args = Some k ->
  exists c, bind_arguments c = Some k /\
    forall w, cli self args w =
      let '(r, w') :=
        invoke c (set_contexts
                    (c :: {| ctx_command := cmd_job; ctx_params := [] |}
                       :: {| ctx_command := cmd_cli; ctx_params := [] |}
                       :: contexts w) w) in
      (r, set_contexts (tl (tl (tl (contexts w')))) w').
Proof.
  unfold accepted. destruct (parse_outcome self args) as [e|c] eqn:Hp; [done|].
  intros Hk. exists c. split; [done|]. intros w.
  unfold cli, with_context, bind, Command_make_context, try_except, bind.
  rewrite (click_make_context_outcome _ _ _ _ Hp) by discriminate. unfold ret.
  destruct (invoke c _) as [r w']. by destruct w'.
Qed.

(** *** The response presenter *)

(** C4, as the code has it. When the remote API answers a job command
    with a status code of 400 or more, the command writes the line
    [got response code <status>] to the error stream.  When the body is
    JSON, it still writes the body, serialised again by [json.dumps], as
    one line on standard output, and the process ends with status 0.
    When the body is not JSON, the decoding error is not caught: nothing
    is written to standard output, the trace of the error follows on the
    error stream, and the process ends with status 1. *)
Theorem error_status_body_is_still_printed self args k t resp :
  accepted self args = Some k ->
  sends_request k ->
  access_token None = inr t ->
  (forall r, send r = inr resp) ->
  400 <= status_code resp ->
  match json.loads response_room (text resp) with
  | inr v =>
      fst (main self args) = 0 /\
      stdout (snd (main self args)) = [line (json.dumps v)] /\
      stderr (snd (main self args)) =
        [line ("got response code " +:+ py.str_int (status_code resp))]
  | inl e =>
      fst (main self args) = 1 /\
      stdout (snd (main self args)) = [] /\
      stderr (snd (main self args)) =
        [line ("got response code " +:+ py.str_int (status_code resp));
         traceback (json_error (text resp) e)]
  end.
Proof.
  intros Hacc Hsend Htok Hnet Hst.
  destruct (cli_accepted _ _ _ Hacc) as (c & Hc & Hcli).
  unfold main. rewrite Hcli. run_monad. rewrite Hc.
  assert (Hge : (status_code resp >=? 400) = true) by lia.
  destruct k as [n d i u b| |j]; cbn in Hsend;
    [destruct Hsend as [body Hbody]; rewrite Hbody; cbn| |];
    rewrite Htok; cbn; rewrite Hnet; cbn; rewrite Hge; cbn;
    (destruct (json.loads response_room (text resp)) as [[e|dg|wh]|v]; cbn; done).
Qed.

(** C5. When the HTTP call of a job command raises a transport-layer
    exception, the command writes exactly one line,
    [error in request: <description>], to the error stream, nothing to
    standard output, and the process ends with status 1. *)
Theorem transport_failure_is_reported self args k t d :
  accepted self args = Some k ->
  sends_request k ->
  access_token None = inr t ->
  (forall r, send r = inl (RequestException d)) ->
  fst (main self args) = 1 /\
  stdout (snd (main self args)) = [] /\
  stderr (snd (main self args)) = [line ("error in request: " +:+ d)].
Proof.
  intros Hacc Hsend Htok Hnet.
  destruct (cli_accepted _ _ _ Hacc) as (c & Hc & Hcli).
  unfold main. rewrite Hcli. run_monad. rewrite Hc.
  destruct k as [n dt i u b| |j]; cbn in Hsend;
    [destruct Hsend as [body Hbody]; rewrite Hbody; cbn| |];
    rewrite Htok; cbn; rewrite Hnet; cbn; done.
Qed.

(** *** The header builder *)

(** C9. For every accepted command line, when the token provider returns
    the token [t], exactly one HTTP request is issued, its headers are
    exactly [{"Authorization": "Bearer " + t}], and the token provider has
    been called exactly once (with no token store). *)
Theorem request_carries_fresh_bearer_token self args k t :
  accepted self args = Some k ->
  sends_request k ->
  access_token None = inr t ->
  exists r,
    http_calls (snd (main self args)) = [r] /\
    headers r = {[ "Authorization" := "Bearer " +:+ t ]} /\
    token_calls (snd (main self args)) = [None].
Proof.
  intros Hacc Hsend Htok.
  destruct (cli_accepted _ _ _ Hacc) as (c & Hc & Hcli).
  unfold main. rewrite Hcli. run_monad. rewrite Hc.
  destruct k as [n dt i u b| |j]; cbn in Hsend;
    [destruct Hsend as [body Hbody]; rewrite Hbody; cbn| |];
    rewrite Htok; cbn;
    lazymatch goal with
    | |- context [send ?r] =>
        exists r; destruct (send r) as [e|resp];
        [ crush_exn e; done
        | cbn; destruct (status_code resp >=? 400); cbn;
          destruct (json.loads response_room (text resp)) as [[?|?|?]|?]; cbn; done ]
    end.
Qed.

(** C3, as the code has it. When the HTTP call of a job command completes
    with a body that is not JSON, [show_response] raises the decoding error
    outside the [try] block of the command: nothing is written to standard
    output, no [error in request] line is written, the error stream holds
    the [got response code] line (for a status of 400 or more) followed by
    the trace of the uncaught exception, and the process ends with
    status 1. *)
Theorem undecodable_body_is_not_caught self args k t resp e :
  accepted self args = Some k ->
  sends_request k ->
  access_token None = inr t ->
  (forall r, send r = inr resp) ->
  json.loads response_room (text resp) = inl e ->
  fst (main self args) = 1 /\
  stdout (snd (main self args)) = [] /\
  stderr (snd (main self args)) =
    ((if status_code resp >=? 400
      then [line ("got response code " +:+ py.str_int (status_code resp))]
      else [])
     ++ [traceback (json_error (text resp) e)])%list /\
  (forall d, line ("error in request: " +:+ d) ∉ stderr (snd (main self args))).
Proof.
  intros Hacc Hsend Htok Hnet He.
  destruct (cli_accepted _ _ _ Hacc) as (c & Hc & Hcli).
  unfold main. rewrite Hcli. run_monad. rewrite Hc.
  destruct k as [n dt i u b| |j]; cbn in Hsend;
    [destruct Hsend as [body Hbody]; rewrite Hbody; cbn| |];
    rewrite Htok; cbn; rewrite Hnet; cbn;
    destruct (status_code resp >=? 400); cbn; rewrite He; cbn;
    destruct e as [e|dg|wh]; cbn;
    (repeat split; [done..|]); intros d Hin;
    repeat (apply elem_of_cons in Hin as [Hin|Hin]; [discriminate|]);
    by apply elem_of_nil in Hin.
Qed.

(** *** [submit] and the action body *)

(** C7, as the code has it. When [json.loads] rejects the text given as
    [--action-body], [submit] stops before it fetches a token or sends a
    request, and nothing is written to standard output.  For the errors
    that are a [ValueError] (every syntax error that the decoder reports)
    [submit] raises [BadOptionUsage] for the option [action-body], with a
    message that contains the error of the decoder; the process shows the
    message and ends with status 2.  A text that nests arrays or objects
    beyond the recursion limit makes the decoder raise [RecursionError],
    which [submit] does not catch: the process ends with status 1 on the
    trace of that error. *)
Theorem invalid_json_body_is_rejected self args n d i u b e :
  accepted self args = Some (call_submit n d i u b) ->
  json.loads body_room b = inl e ->
  http_calls (snd (main self args)) = [] /\
  token_calls (snd (main self args)) = [] /\
  stdout (snd (main self args)) = [] /\
  match e with
  | json.Recursion _ =>
      fst (main self args) = 1 /\
      stderr (snd (main self args))
        = [traceback (RuntimeError (json.error_str b e))]
  | _ =>
      exists x,
        cls x = BadOptionUsage /\
        option_name x = Some "action-body" /\
        Contains (json.error_str b e) (message x) /\
        (forall w, submit n d i u b w = (inl (ClickUsage x), w)) /\
        fst (main self args) = 2 /\
        list.last (stderr (snd (main self args)))
          = Some (line ("Error: " +:+ message x))
  end.
Proof.
  intros Hacc He.
  destruct (cli_accepted _ _ _ Hacc) as (c & Hc & Hcli).
  assert (Hm : Contains (json.error_str b e)
                 ("--action-body must parse into valid JSON; got error: "
                  +:+ json.error_str b e)).
  { exists "--action-body must parse into valid JSON; got error: ", "".
    by rewrite append_empty_r. }
  unfold main. rewrite Hcli. run_monad. rewrite Hc, He.
  destruct e as [e|dg|wh]; cbn;
    (split; [done|]); (split; [done|]); (split; [done|]).
  - eexists {| cls := BadOptionUsage; option_name := Some "action-body" |}.
    split; [reflexivity|]. split; [reflexivity|]. split; [exact Hm|]. done.
  - eexists {| cls := BadOptionUsage; option_name := Some "action-body" |}.
    split; [reflexivity|]. split; [reflexivity|]. split; [exact Hm|]. done.
  - done.
Qed.

(** *** Usage on error *)

(** What [Command.make_context] does with a usage error of one of the
    four kinds it intercepts: the error is shown on the error stream, a
    blank line and the usage text go to standard output, and [ctx.exit()]
    in [show_usage] ends the process, with code 0, before either
    [sys.exit] is reached. *)
Lemma usage_on_error_run self args e :
  parse_outcome self args = inl (ClickUsage e) ->
  isinstance e MissingParameter || isinstance e BadArgumentUsage
  || isinstance e BadOptionUsage || isinstance e BadParameter = true ->
  main self args =
    (0, {| stdout := [line ""; line (usage_text self)];
           stderr :=
             (match ctx e with
              | Some c => [line (usage_line (ctx_command c) +:+ nl)]
              | None => []
              end ++ [line ("Error: " +:+ format_message e)])%list;
           http_calls := []; token_calls := []; contexts := [] |}).
Proof.
  intros Hp Hk.
  unfold main, cli, with_context, bind, Command_make_context, try_except, bind.
  rewrite (click_make_context_outcome _ _ _ _ Hp) by discriminate.
  destruct e as [k m ph pt on c cm].
  destruct k; try discriminate; destruct c; reflexivity.
Qed.

(** C1, as the code has it. Whenever building the context of a command
    fails with a missing parameter, a bad argument, a bad option or a bad
    parameter, the error message is written, then a blank line and the
    usage text of the command, and the process ends with status 0: the
    exit in [show_usage] comes first. *)
Theorem usage_error_ends_with_status_zero self args e :
  parse_outcome self args = inl (ClickUsage e) ->
  isinstance e MissingParameter || isinstance e BadArgumentUsage
  || isinstance e BadOptionUsage || isinstance e BadParameter = true ->
  fst (main self args) = 0 /\
  stdout (snd (main self args)) = [line ""; line (usage_text self)] /\
  list.last (stderr (snd (main self args))) = Some (line ("Error: " +:+ format_message e)).
Proof.
  intros Hp Hk. rewrite (usage_on_error_run _ _ _ Hp Hk). cbn.
  repeat split. by destruct (ctx e).
Qed.

(** The outcome of parsing [job status <s>] when [s] is not a UUID. *)
Lemma status_parse_malformed g ex s :
  consume_value "job_id" g = Some s ->
  uuid.of_str s = None ->
  parse_outcome cmd_status (inr {| given := g; extra := ex; help := false |}) =
    inl (ClickUsage
           {| cls := BadParameter; message := s; param_hint := Some "'JOB_ID'";
              param_type := ""; option_name := None;
              ctx := Some {| ctx_command := cmd_status; ctx_params := [] |};
              cmd := Some cmd_status |}).
Proof.
  intros Hg Hs.
  unfold parse_outcome, click_make_context, with_context, bind.
  cbn [params iter_params_for_processing fold_left insert_by given process_params
       help show_help].
  unfold handle_parse_result, augment_usage_errors, try_except, bind.
  cbn [name type convert FuncParamType_UUID].
  rewrite Hg, Hs. reflexivity.
Qed.

(** C8. When the text given as [job_id] does not parse as a UUID, [status]
    fails while its context is built, with [BadParameter]; the wrapper
    prints a blank line and the usage text of [status]; the command body
    does not run: no token is fetched and no request is sent. *)
Theorem status_rejects_malformed_uuid g ex s :
  consume_value "job_id" g = Some s ->
  uuid.of_str s = None ->
  let args := inr {| given := g; extra := ex; help := false |} in
  (exists e, parse_outcome cmd_status args = inl (ClickUsage e)
             /\ cls e = BadParameter /\ message e = s) /\
  accepted cmd_status args = None /\
  stdout (snd (main cmd_status args)) = [line ""; line (usage_text cmd_status)] /\
  list.last (stderr (snd (main cmd_status args)))
    = Some (line ("Error: Invalid value for 'JOB_ID': " +:+ s)) /\
  token_calls (snd (main cmd_status args)) = [] /\
  http_calls (snd (main cmd_status args)) = [].
Proof.
  intros Hg Hs args.
  pose proof (status_parse_malformed g ex s Hg Hs) as Hp. fold args in Hp.
  split; [eauto|]. split; [unfold accepted; by rewrite Hp|].
  by rewrite (usage_on_error_run _ _ _ Hp eq_refl).
Qed.

(** The decoder stops at a leading single quote. *)
Lemma loads_single_quote room s :
  json.loads room ("'" +:+ s)
  = inl (json.Decode {| json.msg := "Expecting value"; json.pos := 0 |}).
Proof. reflexivity. Qed.

(** What an accepted [submit] does with a body that starts with a single
    quote. *)
Lemma single_quote_run self args n d i u s :
  accepted self args = Some (call_submit n d i u ("'" +:+ s)) ->
  fst (main self args) = 2 /\
  list.last (stderr (snd (main self args)))
    = Some (line ("Error: --action-body must parse into valid JSON; got error: "
                  +:+ "Expecting value: line 1 column 1 (char 0)")) /\
  stdout (snd (main self args)) = [] /\
  token_calls (snd (main self args)) = [] /\
  http_calls (snd (main self args)) = [].
Proof.
  intros Hacc.
  destruct (cli_accepted _ _ _ Hacc) as (c & Hc & Hcli).
  unfold main. rewrite Hcli. run_monad. rewrite Hc, loads_single_quote. cbn. done.
Qed.

(** C2, as the code has it. [submit] strips the quotes into
    [callback_body] and then parses [action_body], the text as it was
    given.  On the body [{"k": 1}] wrapped in single quotes, stripping and
    parsing would give the object [{"k": 1}]; the command instead fails
    with the decoder's error, ends with status 2 and sends nothing. *)
Theorem submit_parses_the_text_as_given self args n d i u :
  let b := ("'{" +:+ py.dq "k" +:+ ": 1}'") in
  accepted self args = Some (call_submit n d i u b) ->
  (forall room,
     json.loads (S room) (py.strip (String json.dquote "") (py.strip "'" b))
     = inr (json.Object [("k", json.Int 1)])) /\
  (forall room,
     json.loads room b
     = inl (json.Decode {| json.msg := "Expecting value"; json.pos := 0 |})) /\
  fst (main self args) = 2 /\
  http_calls (snd (main self args)) = [].
Proof.
  intros b Hacc. split; [|split]; [reflexivity..|].
  destruct (single_quote_run _ _ _ _ _ _ ("{" +:+ py.dq "k" +:+ ": 1}'") Hacc)
    as (H1 & _ & _ & _ & H5).
  done.
Qed.

(** The payload of an accepted [submit]: the text of the body is parsed
    as it is, whatever stripping the quotes would give. *)
Lemma submit_payload n d i u b v t w :
  json.loads body_room b = inr v ->
  access_token None = inr t ->
  exists r,
    http_calls (snd (submit n d i u b w)) = (http_calls w ++ [r])%list /\
    url r = jobs_url /\
    (exists body, json_body r = Some body /\
       member "callback_url" body = Some (json.Str (urllib_parse.geturl u)) /\
       member "callback_body" body = Some v).
Proof.
  intros Hv Htok. run_monad. rewrite Hv; cbn. rewrite Htok; cbn.
  lazymatch goal with
  | |- context [send ?r] =>
      exists r; destruct (send r) as [e|resp];
      [ destruct e; cbn; eauto 10
      | cbn; destruct (status_code resp >=? 400); cbn;
        destruct (json.loads response_room (text resp)) as [[?|?|?]|?]; cbn;
        eauto 10 ]
  end.
Qed.

(** *** The URL validator *)

(** C6, as the code has it. For every text that [urlparse] splits, the
    validator fails with [incomplete URL] when the network location is
    empty; otherwise it fails, with a message that contains the scheme,
    when the scheme is neither [http] nor [https]; otherwise it returns the
    parsed result, and [submit] sends the [geturl()] of that result,
    unchanged, as [callback_url]. *)
Theorem URL_convert_cases value param c r :
  urllib_parse.urlparse value = inr r ->
  (urllib_parse.netloc r = "" ->
   exists e, cls e = BadParameter /\ message e = "incomplete URL" /\
             forall w, URL_convert value param c w = (inl (ClickUsage e), w)) /\
  (urllib_parse.netloc r <> "" ->
   urllib_parse.scheme r <> "http" -> urllib_parse.scheme r <> "https" ->
   exists e, cls e = BadParameter /\
             Contains (urllib_parse.scheme r) (message e) /\
             forall w, URL_convert value param c w = (inl (ClickUsage e), w)) /\
  (urllib_parse.netloc r <> "" ->
   urllib_parse.scheme r = "http" \/ urllib_parse.scheme r = "https" ->
   (forall w, URL_convert value param c w = (inr (VUrl r), w)) /\
   (forall n d i b v t w,
      json.loads body_room b = inr v -> access_token None = inr t ->
      exists q body,
        http_calls (snd (submit n d i r b w)) = (http_calls w ++ [q])%list /\
        json_body q = Some body /\
        member "callback_url" body = Some (json.Str (urllib_parse.geturl r)))).
Proof.
  intros Hr. unfold URL_convert. rewrite Hr. unfold bind, fail, ret, raise.
  split; [|split].
  - intros ->. cbn. eexists {| cls := BadParameter |}. eauto.
  - intros Hn H1 H2.
    apply String.eqb_neq in Hn, H1, H2. rewrite Hn. cbn. rewrite H1, H2. cbn.
    eexists {| cls := BadParameter |}. split; [done|]. split; [|done]. cbn.
    by exists "invalid URL scheme (", "). Only HTTP URLs are allowed".
  - intros Hn Hs. apply String.eqb_neq in Hn. rewrite Hn. split.
    + destruct Hs as [-> | ->]; done.
    + intros n d i b v t w Hv Htok.
      destruct (submit_payload n d i r b v t w Hv Htok)
        as (q & Hq & _ & body & Hb & Hu & _).
      eauto.
Qed.

(** *** The request of [status] *)

(** The outcome of parsing [job status <s>] when [s] is a UUID. *)
Lemma status_parse_uuid g s u :
  consume_value "job_id" g = Some s ->
  uuid.of_str s = Some u ->
  accepted cmd_status (inr {| given := g; extra := []; help := false |})
  = Some (call_status u).
Proof.
  intros Hg Hs.
  unfold accepted, parse_outcome, click_make_context, with_context, bind.
  cbn [params iter_params_for_processing fold_left insert_by given process_params
       help show_help].
  unfold handle_parse_result, augment_usage_errors, try_except, bind.
  cbn [name type convert FuncParamType_UUID].
  rewrite Hg, Hs. reflexivity.
Qed.

(** The request that [job status] sends for the UUID [u]. *)
Lemma status_request_url args u t :
  accepted cmd_status args = Some (call_status u) ->
  access_token None = inr t ->
  map url (http_calls (snd (main cmd_status args))) = [jobs_url +:+ uuid.str u].
Proof.
  intros Hacc Htok.
  destruct (cli_accepted _ _ _ Hacc) as (c & Hc & Hcli).
  unfold main. rewrite Hcli. run_monad. rewrite Hc, Htok; cbn.
  lazymatch goal with
  | |- context [send ?r] =>
      destruct (send r) as [e|resp];
      [ crush_exn e; done
      | cbn; destruct (status_code resp >=? 400); cbn;
        destruct (json.loads response_room (text resp)) as [[?|?|?]|?]; cbn;
        done ]
  end.
Qed.

(** C10. For every text that [status] accepts as a UUID, the one request
    goes to the jobs endpoint followed by [str(job_id)], the lower-case
    hyphenated rendering of the UUID; so two texts that denote the same
    UUID lead to the same request URL.  The rendering itself, its
    upper-case form, the form between braces, the form after [urn:uuid:]
    and the 32 digits without hyphens all denote that UUID. *)
Theorem status_url_is_canonical g1 g2 s1 s2 u t :
  consume_value "job_id" g1 = Some s1 ->
  consume_value "job_id" g2 = Some s2 ->
  uuid.of_str s1 = Some u ->
  uuid.of_str s2 = Some u ->
  access_token None = inr t ->
  map url (http_calls (snd (main cmd_status
             (inr {| given := g1; extra := []; help := false |}))))
    = [jobs_url +:+ uuid.str u] /\
  map url (http_calls (snd (main cmd_status
             (inr {| given := g2; extra := []; help := false |}))))
    = [jobs_url +:+ uuid.str u] /\
  (forall s, In s (uuid.spellings u) -> uuid.of_str s = Some u).
Proof.
  intros Hg1 Hg2 Hs1 Hs2 Htok.
  split; [|split]; [eapply status_request_url; eauto using status_parse_uuid..|].
  intros s. apply spellings_parse. by eapply of_str_range.
Qed.

End Properties.

(** ** Further properties of the commands *)

Section More.
Context {py_float : PyFloat} {py_datetime : PyDateTime} {interp : Interpreter}
  {urllib : urllib_parse.Urllib} {platform : Platform}.

(** *** What the presenter and the commands do with each outcome *)

(** X1. When the remote API answers a job command with a status code
    below 400 and a JSON body, the body, serialised again, is the one
    line on standard output, nothing is written to the error stream, and
    the process ends with status 0. *)
Theorem success_body_is_printed self args k t resp v :
  accepted self args = Some k ->
  sends_request k ->
  access_token None = inr t ->
  (forall r, send r = inr resp) ->
  status_code resp < 400 ->
  json.loads response_room (text resp) = inr v ->
  fst (main self args) = 0 /\
  stdout (snd (main self args)) = [line (json.dumps v)] /\
  stderr (snd (main self args)) = [].
Proof.
  intros Hacc Hsend Htok Hnet Hst Hv.
  destruct (cli_accepted _ _ _ Hacc) as (c & Hc & Hcli).
  unfold main. rewrite Hcli. run_monad. rewrite Hc.
  assert (Hge : (status_code resp >=? 400) = false) by lia.
  destruct k as [n d i u b| |j]; cbn in Hsend;
    [destruct Hsend as [body Hbody]; rewrite Hbody; cbn| |];
    rewrite Htok; cbn; rewrite Hnet; cbn; rewrite Hge; cbn; rewrite Hv; cbn;
    done.
Qed.

(** X2. [get_headers] does not catch what the token provider raises, and
    the commands call it outside their [try] block: when the provider
    fails, no request is sent, nothing is written to standard output, and
    the process ends with status 1 on the trace of that exception. *)
Theorem token_failure_sends_nothing self args k e :
  accepted self args = Some k ->
  sends_request k ->
  access_token None = inl e ->
  crashes e = true ->
  main self args =
    (1, {| stdout := []; stderr := [traceback e]; http_calls := [];
           token_calls := [None]; contexts := [] |}).
Proof.
  intros Hacc Hsend Htok He.
  destruct (cli_accepted _ _ _ Hacc) as (c & Hc & Hcli).
  unfold main. rewrite Hcli. run_monad. rewrite Hc.
  destruct k as [n d i u b| |j]; cbn in Hsend;
    [destruct Hsend as [body Hbody]; rewrite Hbody; cbn| |];
    rewrite Htok; cbn; destruct e; try discriminate; reflexivity.
Qed.

(** X3. The commands catch [requests.RequestException] only: any other
    exception raised by the HTTP call goes through uncaught; there is no
    [error in request] line, nothing on standard output, and the process
    ends with status 1 on the trace of the exception. *)
Theorem other_transport_exceptions_are_not_caught self args k t e :
  accepted self args = Some k ->
  sends_request k ->
  access_token None = inr t ->
  (forall r, send r = inl e) ->
  crashes e = true ->
  (forall d, e <> RequestException d) ->
  fst (main self args) = 1 /\
  stdout (snd (main self args)) = [] /\
  stderr (snd (main self args)) = [traceback e].
Proof.
  intros Hacc Hsend Htok Hnet He Hne.
  destruct (cli_accepted _ _ _ Hacc) as (c & Hc & Hcli).
  unfold main. rewrite Hcli. run_monad. rewrite Hc.
  destruct k as [n d i u b| |j]; cbn in Hsend;
    [destruct Hsend as [body Hbody]; rewrite Hbody; cbn| |];
    rewrite Htok; cbn; rewrite Hnet; cbn;
    destruct e as [| | | | | | | | | | |d'|]; try discriminate; try done;
    by destruct (Hne d').
Qed.

(** X19. What click makes of the exceptions that are no failure of the
    program: when the token provider or the HTTP call is interrupted
    ([KeyboardInterrupt]) or meets the end of its input ([EOFError]), the
    process writes an empty line and [Aborted!] to the error stream,
    without a trace, and ends with status 1. *)
Theorem interrupt_is_aborted self args k r :
  accepted self args = Some k ->
  sends_request k ->
  (access_token None = inl r \/
   exists t, access_token None = inr t /\ forall q, send q = inl r) ->
  r = KeyboardInterrupt \/ r = EOFError ->
  fst (main self args) = 1 /\
  stdout (snd (main self args)) = [] /\
  stderr (snd (main self args)) = [line ""; line "Aborted!"].
Proof.
  intros Hacc Hsend Hr Hk.
  destruct (cli_accepted _ _ _ Hacc) as (c & Hc & Hcli).
  unfold main. rewrite Hcli. run_monad. rewrite Hc.
  destruct k as [n d i u b| |j]; cbn in Hsend;
    [destruct Hsend as [body Hbody]; rewrite Hbody; cbn| |];
    (destruct Hr as [Htok|(t & Htok & Hnet)];
     [rewrite Htok | rewrite Htok; cbn; rewrite Hnet]);
    cbn; destruct Hk as [-> | ->]; done.
Qed.

(** *** The requests *)

(** The request of [submit], whatever the network answers. *)
Lemma submit_request_run self args n d i u b v t :
  accepted self args = Some (call_submit n d i u b) ->
  json.loads body_room b = inr v ->
  access_token None = inr t ->
  http_calls (snd (main self args)) =
    [{| method := "POST"; url := jobs_url;
        json_body := Some (json.Object
          [("name", json.Str n);
           ("start", json.Str (isoformat match d with
                                         | Some x => x
                                         | None => now
                                         end));
           ("interval", json.Int i);
           ("callback_url", json.Str (urllib_parse.geturl u));
           ("callback_body", v)]);
        headers := {[ "Authorization" := "Bearer " +:+ t ]};
        timeout := 10 |}].
Proof.
  intros Hacc Hv Htok.
  destruct (cli_accepted _ _ _ Hacc) as (c & Hc & Hcli).
  unfold main. rewrite Hcli. run_monad. rewrite Hc, Hv; cbn. rewrite Htok; cbn.
  lazymatch goal with
  | |- context [send ?r] =>
      destruct (send r) as [e|resp];
      [ crush_exn e; done
      | cbn; destruct (status_code resp >=? 400); cbn;
        destruct (json.loads response_room (text resp)) as [[?|?|?]|?]; cbn;
        done ]
  end.
Qed.

(** X4. An accepted [submit] whose body [json.loads] decodes issues
    exactly one request, whatever the network then answers: a POST to the
    jobs endpoint, with a timeout of 10 seconds and the bearer header,
    whose JSON payload holds, in this order, the name, the start time in
    ISO form (the time given, or the current time when none is given), the
    interval, the [geturl()] of the parsed URL and the parsed body. *)
Theorem submit_sends_the_job self args n d i u b v t :
  accepted self args = Some (call_submit n d i u b) ->
  json.loads body_room b = inr v ->
  access_token None = inr t ->
  http_calls (snd (main self args)) =
    [{| method := "POST"; url := jobs_url;
        json_body := Some (json.Object
          [("name", json.Str n);
           ("start", json.Str (isoformat match d with
                                         | Some x => x
                                         | None => now
                                         end));
           ("interval", json.Int i);
           ("callback_url", json.Str (urllib_parse.geturl u));
           ("callback_body", v)]);
        headers := {[ "Authorization" := "Bearer " +:+ t ]};
        timeout := 10 |}].
Proof. apply submit_request_run. Qed.

(** X5. An accepted [list] issues exactly one request, whatever the
    network then answers: a GET to the jobs endpoint, without a body,
    with the bearer header and a timeout of 10 seconds. *)
Theorem list_sends_one_get self args t :
  accepted self args = Some call_list ->
  access_token None = inr t ->
  http_calls (snd (main self args)) =
    [{| method := "GET"; url := jobs_url; json_body := None;
        headers := {[ "Authorization" := "Bearer " +:+ t ]};
        timeout := 10 |}].
Proof.
  intros Hacc Htok.
  destruct (cli_accepted _ _ _ Hacc) as (c & Hc & Hcli).
  unfold main. rewrite Hcli. run_monad. rewrite Hc; cbn. rewrite Htok; cbn.
  lazymatch goal with
  | |- context [send ?r] =>
      destruct (send r) as [e|resp];
      [ crush_exn e; done
      | cbn; destruct (status_code resp >=? 400); cbn;
        destruct (json.loads response_room (text resp)) as [[?|?|?]|?]; cbn;
        done ]
  end.
Qed.

(** X6. An accepted [status] issues exactly one request, whatever the
    network then answers: a GET, without a body, with the bearer header
    and a timeout of 10 seconds, to the jobs endpoint followed by
    [str(job_id)]. *)
Theorem status_sends_one_get self args u t :
  accepted self args = Some (call_status u) ->
  access_token None = inr t ->
  http_calls (snd (main self args)) =
    [{| method := "GET"; url := jobs_url +:+ uuid.str u; json_body := None;
        headers := {[ "Authorization" := "Bearer " +:+ t ]};
        timeout := 10 |}].
Proof.
  intros Hacc Htok.
  destruct (cli_accepted _ _ _ Hacc) as (c & Hc & Hcli).
  unfold main. rewrite Hcli. run_monad. rewrite Hc; cbn. rewrite Htok; cbn.
  lazymatch goal with
  | |- context [send ?r] =>
      destruct (send r) as [e|resp];
      [ crush_exn e; done
      | cbn; destruct (status_code resp >=? 400); cbn;
        destruct (json.loads response_room (text resp)) as [[?|?|?]|?]; cbn;
        done ]
  end.
Qed.

(** *** What [Command.make_context] does not intercept *)

(** A usage error outside the classes that [Command.make_context] names. *)
Lemma left_to_click_run self args e :
  parse_outcome self args = inl (ClickUsage e) ->
  isinstance e BadParameter = false ->
  isinstance e BadOptionUsage = false ->
  isinstance e BadArgumentUsage = false ->
  fst (main self args) = 2 /\
  stdout (snd (main self args)) = [] /\
  stderr (snd (main self args)) = stderr (snd (show e initial)) /\
  list.last (stderr (snd (main self args)))
    = Some (line ("Error: " +:+ format_message e)) /\
  token_calls (snd (main self args)) = [] /\
  http_calls (snd (main self args)) = [].
Proof.
  intros Hp H1 H2 H3.
  unfold main, cli, with_context, bind, Command_make_context, try_except, bind.
  rewrite (click_make_context_outcome _ _ _ _ Hp) by discriminate.
  destruct e as [k m ph pt on c cm].
  destruct k; try discriminate; destruct c as [c|]; destruct cm; cbn; done.
Qed.

(** X7. [Command.make_context] intercepts [MissingParameter],
    [BadArgumentUsage], [BadOptionUsage] and [BadParameter] only.  Any
    other usage error raised while the context is built (an unknown
    option, a stray argument) is left to click: no usage text on standard
    output, the error shown by click on the error stream, status 2, and
    neither token call nor request. *)
Theorem other_usage_errors_are_left_to_click self args e :
  parse_outcome self args = inl (ClickUsage e) ->
  isinstance e BadParameter = false ->
  isinstance e BadOptionUsage = false ->
  isinstance e BadArgumentUsage = false ->
  fst (main self args) = 2 /\
  stdout (snd (main self args)) = [] /\
  stderr (snd (main self args)) = stderr (snd (show e initial)) /\
  list.last (stderr (snd (main self args)))
    = Some (line ("Error: " +:+ format_message e)) /\
  token_calls (snd (main self args)) = [] /\
  http_calls (snd (main self args)) = [].
Proof. apply left_to_click_run. Qed.

(** X8. [job list] followed by any argument: [list] declares no
    parameter, the argument is rejected by click with
    [Got unexpected extra argument (<x>)], or
    [Got unexpected extra arguments (<x> <y> ...)] when there are several,
    and since that error is a plain usage error the process ends with
    status 2 without usage text and without a request. *)
Theorem list_rejects_stray_arguments g x xs :
  let args := inr {| given := g; extra := x :: xs; help := false |} in
  fst (main cmd_list args) = 2 /\
  stdout (snd (main cmd_list args)) = [] /\
  list.last (stderr (snd (main cmd_list args)))
    = Some (line ("Error: Got unexpected extra argument"
                  +:+ match xs with
                      | [] => ""
                      | _ :: _ => "s"
                      end
                  +:+ " (" +:+ json.join " " (x :: xs) +:+ ")")) /\
  http_calls (snd (main cmd_list args)) = [].
Proof.
  intros args.
  assert (Hp : parse_outcome cmd_list args
    = inl (ClickUsage
        {| cls := UsageError_; message := unexpected_extra (x :: xs);
           param_hint := None; param_type := ""; option_name := None;
           ctx := Some {| ctx_command := cmd_list; ctx_params := [] |};
           cmd := Some cmd_list |})) by reflexivity.
  destruct (left_to_click_run _ _ _ Hp eq_refl eq_refl eq_refl)
    as (H1 & H2 & _ & H4 & _ & H6).
  split; [done|]. split; [done|]. split; [|done].
  rewrite H4. by destruct xs.
Qed.

(** X9. An exception that is not a click exception, raised while the
    context is built (the [ValueError] of [urlparse] inside
    [URL.convert]), is not intercepted either: no usage text, no request,
    and the process ends with status 1 on the trace of the exception. *)
Theorem other_exceptions_while_parsing_crash self args e :
  parse_outcome self args = inl e ->
  crashes e = true ->
  main self args =
    (1, {| stdout := []; stderr := [traceback e]; http_calls := [];
           token_calls := []; contexts := [] |}).
Proof.
  intros Hp He.
  unfold main, cli, with_context, bind, Command_make_context, try_except, bind.
  rewrite (click_make_context_outcome _ _ _ _ Hp)
    by (intros [= ->]; discriminate He).
  destruct e; try discriminate; reflexivity.
Qed.

(** X10. [show_usage] asks click for the current context.  When
    [Command.make_context] runs with no context active (the command
    called on its own, not through the group), an intercepted error is
    still shown and the blank line still written, but [show_usage] then
    raises [RuntimeError]: the usage text is not printed. *)
Theorem usage_on_error_needs_a_context self args e w :
  parse_outcome self args = inl (ClickUsage e) ->
  isinstance e MissingParameter || isinstance e BadArgumentUsage
  || isinstance e BadOptionUsage || isinstance e BadParameter = true ->
  contexts w = [] ->
  fst (Command_make_context self args w)
    = inl (RuntimeError "There is no active click context.") /\
  stdout (snd (Command_make_context self args w)) = (stdout w ++ [line ""])%list /\
  list.last (stderr (snd (Command_make_context self args w)))
    = Some (line ("Error: " +:+ format_message e)).
Proof.
  intros Hp Hk Hw.
  unfold Command_make_context, try_except, bind.
  rewrite (click_make_context_outcome _ _ _ _ Hp) by discriminate.
  destruct e as [k m ph pt on c cm]. destruct w as [o er h tk cs]. cbn in Hw. subst cs.
  destruct k; try discriminate; destruct c as [c|]; cbn;
    rewrite ?last_snoc; repeat split;
    try (rewrite app_assoc; apply last_snoc).
Qed.

(** X11. [job status] without a job id: the argument is required, click
    raises [MissingParameter], and the wrapper writes
    [Missing argument 'JOB_ID'.] after the usage line on the error
    stream, a blank line and the usage text of [status] on standard
    output; no token is fetched, no request is sent, and the process ends
    with the status 0 of [ctx.exit()]. *)
Theorem status_without_job_id g ex :
  consume_value "job_id" g = None ->
  main cmd_status (inr {| given := g; extra := ex; help := false |}) =
    (0, {| stdout := [line ""; line (usage_text cmd_status)];
           stderr := [line (usage_line cmd_status +:+ nl);
                      line "Error: Missing argument 'JOB_ID'."];
           http_calls := []; token_calls := []; contexts := [] |}).
Proof.
  intros Hg.
  assert (Hp : parse_outcome cmd_status
                 (inr {| given := g; extra := ex; help := false |}) =
    inl (ClickUsage
           {| cls := MissingParameter; message := ""; param_hint := Some "'JOB_ID'";
              param_type := "argument"; option_name := None;
              ctx := Some {| ctx_command := cmd_status; ctx_params := [] |};
              cmd := Some cmd_status |})).
  { unfold parse_outcome, click_make_context, with_context, bind.
    cbn [params iter_params_for_processing fold_left insert_by given process_params
         help show_help].
    unfold handle_parse_result, augment_usage_errors, try_except, bind.
    cbn [name type required]. rewrite Hg. reflexivity. }
  by rewrite (usage_on_error_run _ _ _ Hp eq_refl).
Qed.

(** X20. [--help] comes first: click processes the option before the
    other parameters, so that with [--help] on the command line the help
    page is the one line on standard output and the process ends with
    status 0, whatever the other options and arguments are, also when
    one is missing or malformed; no token is fetched and no request is
    sent. *)
Theorem help_comes_first self g ex :
  main self (inr {| given := g; extra := ex; help := true |}) =
    (0, {| stdout := [line (help_page self)]; stderr := []; http_calls := [];
           token_calls := []; contexts := [] |}).
Proof.
  unfold main, cli, with_context, bind, Command_make_context, try_except, bind.
  by rewrite click_make_context_help.
Qed.

(** *** The URL and the body of [submit] *)

(** X12. Every URL that the validator accepts is absolute: its scheme is
    [http] or [https], its network location is not empty, and the
    callback URL rebuilt from it by [geturl()] starts with the scheme,
    [://] and the network location. *)
Theorem accepted_url_is_absolute value p c w r :
  URL_convert value p c w = (inr (VUrl r), w) ->
  (urllib_parse.scheme r = "http" \/ urllib_parse.scheme r = "https") /\
  urllib_parse.netloc r <> "" /\
  exists rest,
    urllib_parse.geturl r
    = urllib_parse.scheme r +:+ "://" +:+ urllib_parse.netloc r +:+ rest.
Proof.
  unfold URL_convert. destruct (urllib_parse.urlparse value) as [err|r0]; [done|].
  unfold bind, fail, ret, raise.
  destruct (String.eqb (urllib_parse.netloc r0) "") eqn:Hn; [done|].
  destruct (negb _) eqn:Hs; [done|]. intros [= <-].
  apply String.eqb_neq in Hn. apply negb_false_iff in Hs.
  assert (Hsch : urllib_parse.scheme r0 = "http" \/ urllib_parse.scheme r0 = "https").
  { unfold urllib_parse.str_in in Hs. cbn in Hs.
    rewrite orb_false_r in Hs. apply orb_prop in Hs as [H|H];
      apply String.eqb_eq in H; auto. }
  split; [done|]. split; [done|].
  unfold urllib_parse.geturl.
  apply String.eqb_neq in Hn. rewrite Hn. cbn [negb orb].
  assert (Hne : String.eqb (urllib_parse.scheme r0) "" = false)
    by (destruct Hsch as [-> | ->]; reflexivity).
  rewrite Hne.
  set (u0 := if String.eqb (urllib_parse.params r0) "" then urllib_parse.path r0
             else urllib_parse.path r0 +:+ ";" +:+ urllib_parse.params r0).
  set (u1 := if negb (String.eqb u0 "") && negb (py.startswith "/" u0)
             then "/" +:+ u0 else u0).
  destruct (String.eqb (urllib_parse.query r0) "");
    destruct (String.eqb (urllib_parse.fragment r0) "").
  - exists u1. reflexivity.
  - exists (u1 +:+ "#" +:+ urllib_parse.fragment r0).
    rewrite !append_assoc. reflexivity.
  - exists (u1 +:+ "?" +:+ urllib_parse.query r0).
    rewrite !append_assoc. reflexivity.
  - exists (u1 +:+ "?" +:+ urllib_parse.query r0 +:+ "#" +:+ urllib_parse.fragment r0).
    rewrite !append_assoc. reflexivity.
Qed.

(** X13. A body that starts with a single quote is never accepted:
    [submit] parses the text as given, the decoder stops at the quote,
    and the command fails with [Expecting value: line 1 column 1 (char 0)]
    in its message, with status 2, before any token call or request. *)
Theorem single_quoted_body_is_rejected self args n d i u s :
  accepted self args = Some (call_submit n d i u ("'" +:+ s)) ->
  fst (main self args) = 2 /\
  list.last (stderr (snd (main self args)))
    = Some (line ("Error: --action-body must parse into valid JSON; got error: "
                  +:+ "Expecting value: line 1 column 1 (char 0)")) /\
  stdout (snd (main self args)) = [] /\
  token_calls (snd (main self args)) = [] /\
  http_calls (snd (main self args)) = [].
Proof. apply single_quote_run. Qed.

(** The command lines of [submit] that click accepts. *)
Lemma submit_line_accepted n s it v b d i r :
  parse_start s = Some d ->
  py.int_of_str 10 it = Some i ->
  urllib_parse.urlparse v = inr r ->
  urllib_parse.netloc r <> "" ->
  urllib_parse.scheme r = "http" \/ urllib_parse.scheme r = "https" ->
  accepted cmd_submit (submit_line n s it v b) = Some (call_submit n d i r b).
Proof.
  intros Hd Hi Hr Hn Hs.
  apply String.eqb_neq in Hn.
  assert (Hin : urllib_parse.str_in (urllib_parse.scheme r) ["http"; "https"] = true)
    by (destruct Hs as [-> | ->]; reflexivity).
  unfold accepted, parse_outcome, submit_line, click_make_context, with_context, bind.
  cbn [given extra help show_help]. unfold ret at 1.
  destruct s as [x|]; cbn in Hd.
  - destruct (datetime_parse x) as [dd|] eqn:Hx; [|discriminate].
    injection Hd as <-.
    set (G := ([("name", n)] ++ [("start", x)]
               ++ [("interval", it); ("action_url", v); ("action_body", b)])%list).
    assert (Ho : iter_params_for_processing (map fst G) (params cmd_submit) =
      [ option_ "name" "--name" true STRING;
        option_ "start" "--start" false DateTime;
        option_ "interval" "--interval" true INT;
        option_ "action_url" "--action-url" true URL;
        option_ "action_body" "--action-body" true STRING ]) by reflexivity.
    assert (H1 : consume_value "name" G = Some n) by reflexivity.
    assert (H2 : consume_value "start" G = Some x) by reflexivity.
    assert (H3 : consume_value "interval" G = Some it) by reflexivity.
    assert (H4 : consume_value "action_url" G = Some v) by reflexivity.
    assert (H5 : consume_value "action_body" G = Some b) by reflexivity.
    rewrite Ho. clearbody G.
    cbn [process_params]. unfold handle_parse_result, augment_usage_errors, try_except, bind.
    cbn [name type convert hint required option_ STRING INT DateTime URL].
    rewrite H1, H2, H3, H4, H5. unfold ret at 1. rewrite Hx. unfold ret at 1.
    rewrite Hi. unfold ret at 1. unfold URL_convert, bind. rewrite Hr, Hn, Hin.
    reflexivity.
  - injection Hd as <-.
    set (G := ([("name", n)] ++ []
               ++ [("interval", it); ("action_url", v); ("action_body", b)])%list).
    assert (Ho : iter_params_for_processing (map fst G) (params cmd_submit) =
      [ option_ "name" "--name" true STRING;
        option_ "interval" "--interval" true INT;
        option_ "action_url" "--action-url" true URL;
        option_ "action_body" "--action-body" true STRING;
        option_ "start" "--start" false DateTime ]) by reflexivity.
    assert (H1 : consume_value "name" G = Some n) by reflexivity.
    assert (H2 : consume_value "start" G = None) by reflexivity.
    assert (H3 : consume_value "interval" G = Some it) by reflexivity.
    assert (H4 : consume_value "action_url" G = Some v) by reflexivity.
    assert (H5 : consume_value "action_body" G = Some b) by reflexivity.
    rewrite Ho. clearbody G.
    cbn [process_params]. unfold handle_parse_result, augment_usage_errors, try_except, bind.
    cbn [name type convert hint required option_ STRING INT DateTime URL].
    rewrite H1, H2, H3, H4, H5. unfold ret at 1.
    rewrite Hi. unfold ret at 1. unfold URL_convert, bind. rewrite Hr, Hn, Hin.
    reflexivity.
Qed.

(** X14. The command line [job submit --name <n> [--start <s>]
    --interval <it> --action-url <v> --action-body <b>] is accepted, and
    the job is posted, as soon as the start (if given) is a date, [int]
    reads the interval, [urlparse] splits the URL into a scheme [http] or
    [https] and a network location, and [json.loads] decodes the body.
    Nothing else is checked: the name may be any text, also the empty
    one, and the interval any integer, also zero or negative; they are
    sent as they are. *)
Theorem submit_command_line n s it v b d i r body t :
  parse_start s = Some d ->
  py.int_of_str 10 it = Some i ->
  urllib_parse.urlparse v = inr r ->
  urllib_parse.netloc r <> "" ->
  urllib_parse.scheme r = "http" \/ urllib_parse.scheme r = "https" ->
  json.loads body_room b = inr body ->
  access_token None = inr t ->
  http_calls (snd (main cmd_submit (submit_line n s it v b))) =
    [{| method := "POST"; url := jobs_url;
        json_body := Some (json.Object
          [("name", json.Str n);
           ("start", json.Str (isoformat match d with
                                         | Some x => x
                                         | None => now
                                         end));
           ("interval", json.Int i);
           ("callback_url", json.Str (urllib_parse.geturl r));
           ("callback_body", body)]);
        headers := {[ "Authorization" := "Bearer " +:+ t ]};
        timeout := 10 |}].
Proof.
  intros Hd Hi Hr Hn Hs Hb Htok.
  eapply submit_request_run; eauto using submit_line_accepted.
Qed.

(** *** What holds on every run *)

(** X15. Whatever the arguments of a job command, the token provider and
    the network are, standard output ends up in one of four states:
    empty, holding the help page of the command, holding a blank line and
    the usage text of the command, or holding one line of JSON. *)
Theorem stdout_is_json_or_usage self args :
  stdout (snd (main self args)) = [] \/
  stdout (snd (main self args)) = [line (help_page self)] \/
  stdout (snd (main self args)) = [line ""; line (usage_text self)] \/
  exists v, stdout (snd (main self args)) = [line (json.dumps v)].
Proof.
  unfold main, cli, with_context, bind, Command_make_context, try_except, bind.
  destruct (asks_help args) eqn:Hh.
  { destruct args as [?|a]; [done|]. rewrite click_make_context_help by done.
    cbn. auto. }
  rewrite click_make_context_pure by done.
  destruct (parse_outcome self args) as [e|c].
  - crush_exn e; auto.
  - unfold ret. run_monad.
    destruct (bind_arguments c) as [[n d i u b| |j]|]; cbn; auto;
      try (destruct (json.loads body_room b) as [[eb|dg|wh]|vb]; cbn; auto);
      (destruct (access_token None) as [e|t]; cbn; [crush_exn e; auto|]);
      (lazymatch goal with
       | |- context [send ?r] => destruct (send r) as [e|resp]
       end; cbn; [crush_exn e; auto|]);
      destruct (status_code resp >=? 400); cbn;
      destruct (json.loads response_room (text resp)) as [[er|dr|wr]|vr]; cbn;
      eauto 6.
Qed.

(** X16. A command line that is not accepted never reaches the token
    provider or the network: every argument error is found before. *)
Theorem no_request_without_accepted_arguments self args :
  accepted self args = None ->
  token_calls (snd (main self args)) = [] /\
  http_calls (snd (main self args)) = [].
Proof.
  unfold accepted.
  unfold main, cli, with_context, bind, Command_make_context, try_except, bind.
  destruct (asks_help args) eqn:Hh.
  { destruct args as [?|a]; [done|]. rewrite click_make_context_help by done.
    cbn. auto. }
  rewrite click_make_context_pure by done.
  destruct (parse_outcome self args) as [e|c].
  - intros _. crush_exn e; auto.
  - intros Hc. unfold ret. run_monad. rewrite Hc. cbn. auto.
Qed.

(** X17. Whatever happens, a run calls the token provider at most once,
    always without a token store, and sends at most one request; a
    request is only sent after the token provider has been called. *)
Theorem at_most_one_request self args :
  (http_calls (snd (main self args)) = [] \/
   exists r, http_calls (snd (main self args)) = [r]
             /\ token_calls (snd (main self args)) = [None]) /\
  (token_calls (snd (main self args)) = [] \/
   token_calls (snd (main self args)) = [None]).
Proof.
  unfold main, cli, with_context, bind, Command_make_context, try_except, bind.
  destruct (asks_help args) eqn:Hh.
  { destruct args as [?|a]; [done|]. rewrite click_make_context_help by done.
    cbn. auto. }
  rewrite click_make_context_pure by done.
  destruct (parse_outcome self args) as [e|c].
  - crush_exn e; eauto 10.
  - unfold ret. run_monad.
    destruct (bind_arguments c) as [[n d i u b| |j]|]; cbn; eauto 10;
      try (destruct (json.loads body_room b) as [[eb|dg|wh]|vb]; cbn; eauto 10);
      (destruct (access_token None) as [e|t]; cbn; [crush_exn e; eauto 10|]);
      (lazymatch goal with
       | |- context [send ?r] => destruct (send r) as [e|resp]
       end; cbn; [crush_exn e; eauto 10|]);
      destruct (status_code resp >=? 400); cbn;
      destruct (json.loads response_room (text resp)) as [[er|dr|wr]|vr]; cbn;
      eauto 10.
Qed.

Lemma raises_ordinary_ret {A} (a : A) : raises_ordinary (ret a).
Proof. intros w e. discriminate. Qed.

Lemma raises_ordinary_raise {A} (e : exn) :
  ordinary e = true -> raises_ordinary (@raise _ _ A e).
Proof. intros He w e' [= <-]. exact He. Qed.

Lemma raises_ordinary_bind {A B} (m : M A) (k : A -> M B) :
  raises_ordinary m -> (forall a, raises_ordinary (k a)) -> raises_ordinary (bind m k).
Proof.
  intros Hm Hk w e. unfold bind. specialize (Hm w).
  destruct (m w) as [[e'|a] w']; cbn in *.
  - intros [= <-]. by apply Hm.
  - apply Hk.
Qed.

Lemma raises_ordinary_augment {A} c p (m : M A) :
  raises_ordinary m -> raises_ordinary (augment_usage_errors c p m).
Proof.
  intros Hm w e. unfold augment_usage_errors, try_except. specialize (Hm w).
  destruct (m w) as [[e'|a] w']; cbn in *; [|discriminate].
  destruct e'; cbn; intros [= <-]; try done; by apply Hm.
Qed.

Lemma raises_ordinary_params (self : command) :
  Forall (fun p => forall v h c, raises_ordinary (convert (type p) v h c))
    (params self).
Proof.
  destruct self; repeat constructor; intros v h c; cbn.
  - apply raises_ordinary_ret.
  - destruct (datetime_parse v); [apply raises_ordinary_ret | by apply raises_ordinary_raise].
  - destruct (py.int_of_str 10 v); [apply raises_ordinary_ret | by apply raises_ordinary_raise].
  - unfold URL_convert. destruct (urllib_parse.urlparse v); [by apply raises_ordinary_raise|].
    apply raises_ordinary_bind.
    + destruct (String.eqb _ _); [by apply raises_ordinary_raise | apply raises_ordinary_ret].
    + intros _. apply raises_ordinary_bind.
      * destruct (negb _); [by apply raises_ordinary_raise | apply raises_ordinary_ret].
      * intros _. apply raises_ordinary_ret.
  - apply raises_ordinary_ret.
  - destruct (uuid.of_str v); [apply raises_ordinary_ret | by apply raises_ordinary_raise].
Qed.

Lemma raises_ordinary_process c ps opts :
  Forall (fun p => forall v h c, raises_ordinary (convert (type p) v h c)) ps ->
  raises_ordinary (process_params c ps opts).
Proof.
  induction 1 as [|p ps Hp _ IH]; cbn.
  - apply raises_ordinary_ret.
  - apply raises_ordinary_bind.
    + unfold handle_parse_result. apply raises_ordinary_augment.
      destruct (consume_value _ _); [apply Hp|].
      destruct (required p); [by apply raises_ordinary_raise | apply raises_ordinary_ret].
    + intros v. apply raises_ordinary_bind; [exact IH|]. intros r.
      apply raises_ordinary_ret.
Qed.

(** Without [--help], building the context of a command raises usage
    errors and [ValueError] only. *)
Lemma click_make_context_ordinary self args :
  asks_help args = false ->
  raises_ordinary (click_make_context self (params self) args).
Proof.
  intros Hh. unfold click_make_context.
  set (c := {| ctx_command := self; ctx_params := [] |}).
  intros w e. unfold with_context.
  lazymatch goal with
  | |- context [let '(r, w') := ?b ?x in _] =>
      assert (Hb : raises_ordinary b); [|specialize (Hb x e); destruct (b x)]
  end.
  - destruct args as [u|a]; [by apply raises_ordinary_raise|].
    cbn in Hh. rewrite Hh. apply raises_ordinary_bind; [apply raises_ordinary_ret|].
    intros _. apply raises_ordinary_bind.
    + apply raises_ordinary_process, Forall_iter_params, raises_ordinary_params.
    + intros vals. destruct (extra a);
        [apply raises_ordinary_ret | by apply raises_ordinary_raise].
  - exact Hb.
Qed.

Lemma parse_outcome_ordinary self args e :
  asks_help args = false -> parse_outcome self args = inl e -> ordinary e = true.
Proof. intros Hh. by apply click_make_context_ordinary. Qed.

(** X18. When the token provider and the network fail only with
    exceptions that carry no exit code, the exit status of the process is
    0, 1 or 2, whatever the command line. *)
Theorem exit_status_is_0_1_or_2 self args :
  (forall ts e, access_token ts = inl e -> ordinary e = true) ->
  (forall r e, send r = inl e -> ordinary e = true) ->
  fst (main self args) = 0 \/ fst (main self args) = 1 \/ fst (main self args) = 2.
Proof.
  intros Htok Hnet.
  unfold main, cli, with_context, bind, Command_make_context, try_except, bind.
  destruct (asks_help args) eqn:Hh.
  { destruct args as [?|a]; [done|]. rewrite click_make_context_help by done.
    cbn. auto. }
  rewrite click_make_context_pure by done.
  destruct (parse_outcome self args) as [e|c] eqn:Hp.
  - apply parse_outcome_ordinary in Hp; [|done].
    destruct e as [| |[[] ? ? ? ? [] ?]| | | | | | | | | |]; try discriminate;
      cbn; auto.
  - unfold ret. run_monad.
    destruct (bind_arguments c) as [[n d i u b| |j]|]; cbn; auto;
      try (destruct (json.loads body_room b) as [[eb|dg|wh]|vb]; cbn; auto);
      (destruct (access_token None) as [e|t] eqn:Ht; cbn;
       [apply Htok in Ht; destruct e; try discriminate; cbn; auto|]);
      (lazymatch goal with
       | |- context [send ?r] => destruct (send r) as [e|resp] eqn:Hs
       end; cbn; [apply Hnet in Hs; destruct e; try discriminate; cbn; auto|]);
      destruct (status_code resp >=? 400); cbn;
      destruct (json.loads response_room (text resp)) as [[er|dr|wr]|vr]; cbn; auto.
Qed.

End More.

(** ** The properties on concrete command lines *)

Section Runs.
Import sample.

(** [job submit ... --action-body "{}"] against a service that answers 201
    with [{"job_id": "x"}]: the body on standard output, status 0. *)
Example submit_created :
  main (platform := stub created) cmd_submit (submit_args "{}") =
    (0, {| stdout := [line ("{" +:+ py.dq "job_id" +:+ ": " +:+ py.dq "x" +:+ "}")]; stderr := [];
           http_calls :=
             [{| method := "POST"; url := jobs_url;
                 json_body := Some (json.Object
                   [("name", json.Str "demo");
                    ("start", json.Str "2020-06-01T12:00:00");
                    ("interval", json.Int 60);
                    ("callback_url", json.Str "https://example.org/run");
                    ("callback_body", json.Object [])]);
                 headers := {[ "Authorization" := "Bearer abc" ]};
                 timeout := 10 |}];
           token_calls := [None]; contexts := [] |}).
Proof. reflexivity. Qed.

(** A body that is a JSON string is sent as that string: the quotes are
    not stripped before parsing. *)
Example submit_quoted_number :
  json.loads 960 (py.strip (String json.dquote "") (py.strip "'" (py.dq "5")))
    = inr (json.Int 5) /\
  exists r,
    http_calls (snd (main (platform := stub created) cmd_submit
                       (submit_args (py.dq "5")))) = [r] /\
    (exists body, json_body r = Some body /\
       member "callback_body" body = Some (json.Str "5")).
Proof. split; [reflexivity|]. eexists. split; [reflexivity|]. eexists. split; reflexivity. Qed.

(** [job list] against a service that answers 403 with a JSON body: the
    body comes back on standard output as [json.dumps] writes it, the
    characters outside ASCII, the quotes, the backslash and the control
    characters escaped. *)
Lemma error_status_body_is_still_printed_witness :
  fst (main (platform := stub forbidden) cmd_list list_args) = 0 /\
  stdout (snd (main (platform := stub forbidden) cmd_list list_args))
    = [line ("{" +:+ py.dq "error" +:+ ": "
             +:+ py.dq ("caf\u00e9 \" +:+ py.dq "x\"
                        +:+ " \\ \t \u0001 \ud834\udd1e")
             +:+ "}")] /\
  stderr (snd (main (platform := stub forbidden) cmd_list list_args))
    = [line "got response code 403"].
Proof.
  assert (Hacc : accepted (platform := stub forbidden) cmd_list list_args
                 = Some call_list) by reflexivity.
  assert (Hnet : forall r, send (Platform := stub forbidden) r
                           = inr {| status_code := 403; text := forbidden_body |})
    by (intros r; reflexivity).
  pose proof (error_status_body_is_still_printed (platform := stub forbidden)
                cmd_list list_args call_list "abc"
                {| status_code := 403; text := forbidden_body |}
                Hacc I eq_refl Hnet ltac:(cbn; lia)) as H.
  vm_compute in H. vm_compute. exact H.
Defined.

(** C4 fails on the code: [job list] against a gateway that answers 502
    with a page of HTML.  The line [got response code 502] is written,
    but nothing reaches standard output and the process ends with status
    1, on the trace of the decoding error. *)
Lemma error_status_counterexample :
  fst (main (platform := stub bad_gateway) cmd_list list_args) = 1 /\
  stdout (snd (main (platform := stub bad_gateway) cmd_list list_args)) = [] /\
  stderr (snd (main (platform := stub bad_gateway) cmd_list list_args))
    = [line "got response code 502";
       traceback (platform := stub bad_gateway)
         (ValueError "Expecting value: line 1 column 1 (char 0)")].
Proof. repeat split. Qed.

Lemma transport_failure_is_reported_witness :
  fst (main (platform := stub timed_out) cmd_list list_args) = 1 /\
  stdout (snd (main (platform := stub timed_out) cmd_list list_args)) = [] /\
  stderr (snd (main (platform := stub timed_out) cmd_list list_args))
    = [line "error in request: connection timed out"].
Proof.
  apply (transport_failure_is_reported (platform := stub timed_out)
           cmd_list list_args call_list "abc" "connection timed out").
  - reflexivity.
  - exact I.
  - reflexivity.
  - intros r. reflexivity.
Defined.

Lemma request_carries_fresh_bearer_token_witness :
  exists r,
    http_calls (snd (main (platform := stub created) cmd_list list_args)) = [r] /\
    headers r = {[ "Authorization" := "Bearer abc" ]} /\
    token_calls (snd (main (platform := stub created) cmd_list list_args)) = [None].
Proof.
  apply (request_carries_fresh_bearer_token (platform := stub created)
           cmd_list list_args call_list "abc").
  - reflexivity.
  - exact I.
  - reflexivity.
Defined.

Lemma undecodable_body_is_not_caught_witness :
  fst (main (platform := stub not_json) cmd_list list_args) = 1 /\
  stdout (snd (main (platform := stub not_json) cmd_list list_args)) = [].
Proof.
  destruct (undecodable_body_is_not_caught (platform := stub not_json)
              cmd_list list_args call_list "abc"
              {| status_code := 200; text := "<html>" |}
              (json.Decode {| json.msg := "Expecting value"; json.pos := 0 |}))
    as (H1 & H2 & _).
  - reflexivity.
  - exact I.
  - reflexivity.
  - intros r. reflexivity.
  - reflexivity.
  - exact (conj H1 H2).
Defined.

(** C3 fails on the code: [job list] against a service that answers 200
    with a body that is not JSON.  The call completes, and what reaches
    the error stream is the trace of the uncaught decoding error, not an
    [error in request] line. *)
Lemma undecodable_body_counterexample :
  json.loads 955 "<html>"
    = inl (json.Decode {| json.msg := "Expecting value"; json.pos := 0 |}) /\
  length (http_calls (snd (main (platform := stub not_json) cmd_list list_args))) = 1%nat /\
  ~ (exists d, stderr (snd (main (platform := stub not_json) cmd_list list_args))
               = [line ("error in request: " +:+ d)]).
Proof.
  split; [reflexivity|]. split; [reflexivity|].
  intros [d Hd]. vm_compute in Hd. discriminate Hd.
Qed.

Lemma invalid_json_body_is_rejected_witness :
  fst (main (platform := stub created) cmd_submit (submit_args "{oops")) = 2 /\
  list.last (stderr (snd (main (platform := stub created) cmd_submit
                            (submit_args "{oops"))))
    = Some (line ("Error: --action-body must parse into valid JSON; got error: "
                  +:+ "Expecting property name enclosed in double quotes: "
                  +:+ "line 1 column 2 (char 1)")) /\
  http_calls (snd (main (platform := stub created) cmd_submit (submit_args "{oops"))) = [].
Proof.
  destruct (invalid_json_body_is_rejected (platform := stub created)
              cmd_submit (submit_args "{oops") "demo" None 60
              {| urllib_parse.scheme := "https"; urllib_parse.netloc := "example.org";
                 urllib_parse.path := "/run"; urllib_parse.params := "";
                 urllib_parse.query := ""; urllib_parse.fragment := "" |} "{oops"
              (json.Decode
                 {| json.msg := "Expecting property name enclosed in double quotes";
                    json.pos := 1 |}))
    as (H1 & _ & _ & x & _ & _ & [pre [post Hx]] & Hs & H2 & H3).
  - reflexivity.
  - reflexivity.
  - specialize (Hs initial). vm_compute in Hs. injection Hs as <-.
    exact (conj H2 (conj H3 H1)).
Defined.

(** C7 fails on the code: a body of 2000 opening brackets is no JSON, and
    [json.loads] leaves it with [RecursionError] before it reaches the
    end of the text.  [submit] catches [TypeError] and [ValueError] only:
    the process ends with status 1 on the trace of the error, and no
    message names the option. *)
Lemma invalid_json_body_counterexample :
  main (platform := stub created) cmd_submit (submit_args (py.repeat "[" 2000))
    = (1, {| stdout := [];
             stderr := [traceback (platform := stub created)
                          (RuntimeError
                             ("maximum recursion depth exceeded while decoding "
                              +:+ "a JSON array from a unicode string"))];
             http_calls := []; token_calls := []; contexts := [] |}).
Proof. vm_compute. reflexivity. Qed.

Lemma usage_error_ends_with_status_zero_witness :
  fst (main (platform := stub created) cmd_status (status_args "not-a-uuid")) = 0 /\
  stdout (snd (main (platform := stub created) cmd_status (status_args "not-a-uuid")))
    = [line ""; line (usage_text (platform := stub created) cmd_status)].
Proof.
  destruct (usage_error_ends_with_status_zero (platform := stub created)
              cmd_status (status_args "not-a-uuid")
              {| cls := BadParameter; message := "not-a-uuid";
                 param_hint := Some "'JOB_ID'"; param_type := ""; option_name := None;
                 ctx := Some {| ctx_command := cmd_status; ctx_params := [] |};
                 cmd := Some cmd_status |})
    as (H1 & H2 & _).
  - reflexivity.
  - reflexivity.
  - exact (conj H1 H2).
Defined.

(** [job status] with a job id of 31 digits after the control character
    U+001C: [str.strip] would drop the character, [int] does not, and
    the text is no UUID. *)
Lemma status_rejects_malformed_uuid_witness :
  stdout (snd (main (platform := stub created) cmd_status
                 (status_args (String (ascii_of_N 28) "1234567812345678123456781234567"))))
    = [line ""; line (usage_text (platform := stub created) cmd_status)] /\
  http_calls (snd (main (platform := stub created) cmd_status
                     (status_args (String (ascii_of_N 28) "1234567812345678123456781234567"))))
    = [].
Proof.
  destruct (status_rejects_malformed_uuid (platform := stub created)
              [("job_id", String (ascii_of_N 28) "1234567812345678123456781234567")] []
              (String (ascii_of_N 28) "1234567812345678123456781234567"))
    as (_ & _ & H1 & _ & _ & H2).
  - reflexivity.
  - reflexivity.
  - exact (conj H1 H2).
Defined.

Lemma URL_convert_cases_witness :
  URL_convert "https://example.org/run" "'--action-url'"
    {| ctx_command := cmd_submit; ctx_params := [] |} initial =
    (inr (VUrl {| urllib_parse.scheme := "https"; urllib_parse.netloc := "example.org";
                  urllib_parse.path := "/run"; urllib_parse.params := "";
                  urllib_parse.query := ""; urllib_parse.fragment := "" |}), initial).
Proof.
  destruct (URL_convert_cases (platform := stub created) "https://example.org/run"
              "'--action-url'" {| ctx_command := cmd_submit; ctx_params := [] |}
              {| urllib_parse.scheme := "https"; urllib_parse.netloc := "example.org";
                 urllib_parse.path := "/run"; urllib_parse.params := "";
                 urllib_parse.query := ""; urllib_parse.fragment := "" |})
    as (_ & _ & H3).
  - reflexivity.
  - apply H3; [discriminate | right; reflexivity].
Defined.

(** C6 fails on the code: [urlparse] raises [ValueError] on a network
    location with an opening bracket and no closing one, and the validator
    does not catch it.  The outcome is neither a validation failure nor a
    parsed URL, and the process ends with the trace of the exception, with
    no usage text. *)
Lemma URL_convert_counterexample :
  URL_convert "http://[::1" "'--action-url'"
                  {| ctx_command := cmd_submit; ctx_params := [] |} initial
    = (inl (ValueError "Invalid IPv6 URL"), initial) /\
  (forall e, fst (URL_convert "http://[::1" "'--action-url'"
                  {| ctx_command := cmd_submit; ctx_params := [] |} initial)
             <> inl (ClickUsage e)) /\
  (forall v, fst (URL_convert "http://[::1" "'--action-url'"
                  {| ctx_command := cmd_submit; ctx_params := [] |} initial)
             <> inr v) /\
  main (platform := stub created) cmd_submit
    (inr {| given := [("name", "demo"); ("interval", "60");
                      ("action_url", "http://[::1"); ("action_body", "{}")];
            extra := []; help := false |})
    = (1, {| stdout := []; stderr := [traceback (platform := stub created)
                                        (ValueError "Invalid IPv6 URL")];
             http_calls := []; token_calls := []; contexts := [] |}).
Proof. repeat split; discriminate. Qed.

(** The same UUID as its canonical text and as 32 fullwidth digits. *)
Lemma status_url_is_canonical_witness :
  map url (http_calls (snd (main (platform := stub created) cmd_status
             (status_args "12345678-1234-5678-1234-567812345678"))))
    = ["https://sandbox.timer.automate.globus.org/jobs/12345678-1234-5678-1234-567812345678"] /\
  map url (http_calls (snd (main (platform := stub created) cmd_status
             (status_args (fullwidth "12345678123456781234567812345678")))))
    = ["https://sandbox.timer.automate.globus.org/jobs/12345678-1234-5678-1234-567812345678"].
Proof.
  destruct (status_url_is_canonical (platform := stub created)
              [("job_id", "12345678-1234-5678-1234-567812345678")]
              [("job_id", fullwidth "12345678123456781234567812345678")]
              "12345678-1234-5678-1234-567812345678"
              (fullwidth "12345678123456781234567812345678")
              {| uuid.int := 24197857161011715162171839636988778104 |} "abc")
    as (H1 & H2 & _); [reflexivity..|].
  exact (conj H1 H2).
Defined.

Lemma submit_parses_the_text_as_given_witness :
  fst (main (platform := stub created) cmd_submit
         (submit_args ("'{" +:+ py.dq "k" +:+ ": 1}'"))) = 2 /\
  http_calls (snd (main (platform := stub created) cmd_submit
                     (submit_args ("'{" +:+ py.dq "k" +:+ ": 1}'")))) = [].
Proof.
  destruct (submit_parses_the_text_as_given (platform := stub created)
              cmd_submit (submit_args ("'{" +:+ py.dq "k" +:+ ": 1}'")) "demo" None 60
              {| urllib_parse.scheme := "https"; urllib_parse.netloc := "example.org";
                 urllib_parse.path := "/run"; urllib_parse.params := "";
                 urllib_parse.query := ""; urllib_parse.fragment := "" |})
    as (_ & _ & H1 & H2).
  - reflexivity.
  - exact (conj H1 H2).
Defined.

End Runs.

(** ** The library on concrete input *)

Section LibraryRuns.
Import sample.

(** [int]: the characters around a literal that it skips are those of C,
    not those of [str.strip]; digits outside ASCII count. *)
Example int_skips_c_whitespace :
  py.int_of_str 10 (String (ascii_of_N 11) " 42 ") = Some 42 /\
  py.int_of_str 10 (String (ascii_of_N 28) "5") = None /\
  py.int_of_str 16 "0x_1f" = Some 31 /\
  py.int_of_str 10 "1__0" = None /\
  py.int_of_str 10 (fullwidth "60") = Some 60 /\
  py.int_of_str 10 (py.repeat "1" 4301) = None.
Proof. vm_compute. repeat split. Qed.

(** [uuid.UUID]: the length is counted in characters; what [int(hex, 16)]
    accepts is accepted. *)
Example uuid_spellings :
  uuid.of_str (fullwidth "12345678123456781234567812345678")
    = Some {| uuid.int := 24197857161011715162171839636988778104 |} /\
  uuid.of_str (" " +:+ py.repeat "f" 31)
    = Some {| uuid.int := 16 ^ 31 - 1 |} /\
  uuid.of_str (String (ascii_of_N 28) (py.repeat "f" 31)) = None /\
  uuid.of_str "not-a-uuid" = None /\
  uuid.str {| uuid.int := 24197857161011715162171839636988778155 |}
    = "12345678-1234-5678-1234-5678123456ab".
Proof. vm_compute. repeat split. Qed.

(** [json.loads]: positions count characters, a byte order mark is
    refused, the last of two equal keys wins, and an integer beyond the
    limit of [int] is a [ValueError] of its own. *)
Example loads_errors :
  json.error_str (py.dq "é" +:+ " x")
    match json.loads 960 (py.dq "é" +:+ " x") with
    | inl e => e
    | inr _ => json.Recursion ""
    end = "Extra data: line 1 column 5 (char 4)" /\
  json.loads 960 (json.bom +:+ "{}")
    = inl (json.Decode {| json.msg := "Unexpected UTF-8 BOM (decode using utf-8-sig)";
                          json.pos := 0 |}) /\
  json.loads 960 ("{" +:+ py.dq "a" +:+ ": 1, " +:+ py.dq "b" +:+ ": 2, "
                  +:+ py.dq "a" +:+ ": 3}")
    = inr (json.Object [("a", json.Int 3); ("b", json.Int 2)]) /\
  json.loads 960 (py.repeat "1" 4301) = inl (json.IntLimit 4301) /\
  json.loads 2 "[[[]]]" = inl (json.Recursion "array") /\
  json.loads 3 "[[[]]]" = inr (json.Array [json.Array [json.Array []]]).
Proof. vm_compute. repeat split. Qed.

(** [urlparse] of CPython 3.8 on a network location that brings in a
    slash under NFKC normalization. *)
Example urlparse_nfkc :
  urllib_parse.urlparse ("http://" +:+ json.utf8 8448 +:+ ".example.org/run")
    = inl ("netloc '" +:+ json.utf8 8448 +:+ ".example.org' contains invalid "
           +:+ "characters under NFKC normalization").
Proof. reflexivity. Qed.

End LibraryRuns.

(** ** The further properties on concrete command lines *)

Section MoreRuns.
Import sample.

Lemma success_body_is_printed_witness :
  fst (main (platform := stub created) cmd_status
         (status_args "12345678-1234-5678-1234-5678123456ab")) = 0 /\
  stdout (snd (main (platform := stub created) cmd_status
                 (status_args "12345678-1234-5678-1234-5678123456ab")))
    = [line ("{" +:+ py.dq "job_id" +:+ ": " +:+ py.dq "x" +:+ "}")] /\
  stderr (snd (main (platform := stub created) cmd_status
                 (status_args "12345678-1234-5678-1234-5678123456ab"))) = [].
Proof.
  apply (success_body_is_printed (platform := stub created)
           cmd_status (status_args "12345678-1234-5678-1234-5678123456ab")
           (call_status {| uuid.int := 24197857161011715162171839636988778155 |})
           "abc"
           {| status_code := 201;
              text := ("{" +:+ py.dq "job_id" +:+ ": " +:+ py.dq "x" +:+ "}") |}
           (json.Object [("job_id", json.Str "x")])).
  - reflexivity.
  - exact I.
  - reflexivity.
  - intros r. reflexivity.
  - cbn. lia.
  - reflexivity.
Defined.

Lemma token_failure_sends_nothing_witness :
  main (platform := no_token created) cmd_list list_args =
    (1, {| stdout := [];
           stderr := [traceback (platform := no_token created)
                        (OtherError "AuthenticationError: not logged in")];
           http_calls := []; token_calls := [None]; contexts := [] |}).
Proof.
  apply (token_failure_sends_nothing (platform := no_token created)
           cmd_list list_args call_list
           (OtherError "AuthenticationError: not logged in")).
  - reflexivity.
  - exact I.
  - reflexivity.
  - reflexivity.
Defined.

Lemma other_transport_exceptions_are_not_caught_witness :
  fst (main (platform := stub (inl (ValueError "Invalid header value")))
         cmd_list list_args) = 1 /\
  stdout (snd (main (platform := stub (inl (ValueError "Invalid header value")))
                 cmd_list list_args)) = [] /\
  stderr (snd (main (platform := stub (inl (ValueError "Invalid header value")))
                 cmd_list list_args))
    = [traceback (platform := stub (inl (ValueError "Invalid header value")))
         (ValueError "Invalid header value")].
Proof.
  apply (other_transport_exceptions_are_not_caught
           (platform := stub (inl (ValueError "Invalid header value")))
           cmd_list list_args call_list "abc" (ValueError "Invalid header value")).
  - reflexivity.
  - exact I.
  - reflexivity.
  - intros r. reflexivity.
  - reflexivity.
  - intros d. discriminate.
Defined.

Lemma submit_sends_the_job_witness :
  http_calls (snd (main (platform := stub not_found) cmd_submit
                     (submit_args "[1, 2]"))) =
    [{| method := "POST"; url := jobs_url;
        json_body := Some (json.Object
          [("name", json.Str "demo");
           ("start", json.Str "2020-06-01T12:00:00");
           ("interval", json.Int 60);
           ("callback_url", json.Str "https://example.org/run");
           ("callback_body", json.Array [json.Int 1; json.Int 2])]);
        headers := {[ "Authorization" := "Bearer abc" ]};
        timeout := 10 |}].
Proof.
  apply (submit_sends_the_job (platform := stub not_found)
           cmd_submit (submit_args "[1, 2]") "demo" None 60
           {| urllib_parse.scheme := "https"; urllib_parse.netloc := "example.org";
              urllib_parse.path := "/run"; urllib_parse.params := "";
              urllib_parse.query := ""; urllib_parse.fragment := "" |}
           "[1, 2]" (json.Array [json.Int 1; json.Int 2]) "abc").
  - reflexivity.
  - reflexivity.
  - reflexivity.
Defined.

Lemma list_sends_one_get_witness :
  http_calls (snd (main (platform := stub timed_out) cmd_list list_args)) =
    [{| method := "GET"; url := jobs_url; json_body := None;
        headers := {[ "Authorization" := "Bearer abc" ]};
        timeout := 10 |}].
Proof.
  apply (list_sends_one_get (platform := stub timed_out) cmd_list list_args "abc").
  - reflexivity.
  - reflexivity.
Defined.

Lemma status_sends_one_get_witness :
  http_calls (snd (main (platform := stub not_json) cmd_status
                     (status_args "123456781234567812345678123456AB"))) =
    [{| method := "GET";
        url := jobs_url +:+ "12345678-1234-5678-1234-5678123456ab";
        json_body := None;
        headers := {[ "Authorization" := "Bearer abc" ]};
        timeout := 10 |}].
Proof.
  apply (status_sends_one_get (platform := stub not_json) cmd_status
           (status_args "123456781234567812345678123456AB")
           {| uuid.int := 24197857161011715162171839636988778155 |} "abc").
  - reflexivity.
  - reflexivity.
Defined.

Lemma other_usage_errors_are_left_to_click_witness :
  fst (main (platform := stub created) cmd_status
         (inl {| cls := UsageError_; message := "no such option: --verbose";
                 param_hint := None; param_type := ""; option_name := None;
                 ctx := Some {| ctx_command := cmd_status; ctx_params := [] |};
                 cmd := Some cmd_status |})) = 2 /\
  stdout (snd (main (platform := stub created) cmd_status
         (inl {| cls := UsageError_; message := "no such option: --verbose";
                 param_hint := None; param_type := ""; option_name := None;
                 ctx := Some {| ctx_command := cmd_status; ctx_params := [] |};
                 cmd := Some cmd_status |}))) = [].
Proof.
  destruct (other_usage_errors_are_left_to_click (platform := stub created)
              cmd_status
              (inl {| cls := UsageError_; message := "no such option: --verbose";
                      param_hint := None; param_type := ""; option_name := None;
                      ctx := Some {| ctx_command := cmd_status; ctx_params := [] |};
                      cmd := Some cmd_status |})
              {| cls := UsageError_; message := "no such option: --verbose";
                 param_hint := None; param_type := ""; option_name := None;
                 ctx := Some {| ctx_command := cmd_status; ctx_params := [] |};
                 cmd := Some cmd_status |})
    as (H1 & H2 & _); [reflexivity..|].
  exact (conj H1 H2).
Defined.

Lemma other_exceptions_while_parsing_crash_witness :
  main (platform := stub created) cmd_submit
    (submit_line "demo" None "60" "http://[::1" "{}")
    = (1, {| stdout := [];
             stderr := [traceback (platform := stub created)
                          (ValueError "Invalid IPv6 URL")];
             http_calls := []; token_calls := []; contexts := [] |}).
Proof.
  apply (other_exceptions_while_parsing_crash (platform := stub created)
           cmd_submit (submit_line "demo" None "60" "http://[::1" "{}")
           (ValueError "Invalid IPv6 URL")).
  - reflexivity.
  - reflexivity.
Defined.

Lemma usage_on_error_needs_a_context_witness :
  fst (Command_make_context (platform := stub created) cmd_status
         (status_args "not-a-uuid") initial)
    = inl (RuntimeError "There is no active click context.") /\
  stdout (snd (Command_make_context (platform := stub created) cmd_status
                 (status_args "not-a-uuid") initial)) = [line ""].
Proof.
  destruct (usage_on_error_needs_a_context (platform := stub created)
              cmd_status (status_args "not-a-uuid")
              {| cls := BadParameter; message := "not-a-uuid";
                 param_hint := Some "'JOB_ID'"; param_type := ""; option_name := None;
                 ctx := Some {| ctx_command := cmd_status; ctx_params := [] |};
                 cmd := Some cmd_status |} initial)
    as (H1 & H2 & _); [reflexivity..|].
  exact (conj H1 H2).
Defined.

Lemma status_without_job_id_witness :
  main (platform := stub created) cmd_status list_args =
    (0, {| stdout := [line ""; line (usage_text (platform := stub created) cmd_status)];
           stderr := [line ("Usage: timer job status [OPTIONS] JOB_ID" +:+ nl);
                      line "Error: Missing argument 'JOB_ID'."];
           http_calls := []; token_calls := []; contexts := [] |}).
Proof.
  apply (status_without_job_id (platform := stub created) [] []).
  reflexivity.
Defined.

Lemma accepted_url_is_absolute_witness :
  (urllib_parse.scheme (urllib_parse.Build_ParseResult "http" "localhost:8080" "/a" "" "b=1" "") = "http" \/
   urllib_parse.scheme (urllib_parse.Build_ParseResult "http" "localhost:8080" "/a" "" "b=1" "") = "https") /\
  urllib_parse.netloc (urllib_parse.Build_ParseResult "http" "localhost:8080" "/a" "" "b=1" "") <> "" /\
  exists rest,
    urllib_parse.geturl (urllib_parse.Build_ParseResult "http" "localhost:8080" "/a" "" "b=1" "")
    = "http" +:+ "://" +:+ "localhost:8080" +:+ rest.
Proof.
  apply (accepted_url_is_absolute "http://localhost:8080/a?b=1" "'--action-url'"
           {| ctx_command := cmd_submit; ctx_params := [] |} initial
           (urllib_parse.Build_ParseResult "http" "localhost:8080" "/a" "" "b=1" "")).
  reflexivity.
Defined.

Lemma single_quoted_body_is_rejected_witness :
  fst (main (platform := stub created) cmd_submit (submit_args "'{}'")) = 2 /\
  list.last (stderr (snd (main (platform := stub created) cmd_submit
                            (submit_args "'{}'"))))
    = Some (line ("Error: --action-body must parse into valid JSON; got error: "
                  +:+ "Expecting value: line 1 column 1 (char 0)")) /\
  stdout (snd (main (platform := stub created) cmd_submit (submit_args "'{}'"))) = [] /\
  token_calls (snd (main (platform := stub created) cmd_submit (submit_args "'{}'"))) = [] /\
  http_calls (snd (main (platform := stub created) cmd_submit (submit_args "'{}'"))) = [].
Proof.
  apply (single_quoted_body_is_rejected (platform := stub created)
           cmd_submit (submit_args "'{}'") "demo" None 60
           {| urllib_parse.scheme := "https"; urllib_parse.netloc := "example.org";
              urllib_parse.path := "/run"; urllib_parse.params := "";
              urllib_parse.query := ""; urllib_parse.fragment := "" |} "{}'").
  reflexivity.
Defined.

Lemma submit_command_line_witness :
  http_calls (snd (main (platform := stub created) cmd_submit
                     (submit_line "" (Some "2021-01-01 00:00:00") "-5"
                        "https://example.org/run" "{}"))) =
    [{| method := "POST"; url := jobs_url;
        json_body := Some (json.Object
          [("name", json.Str "");
           ("start", json.Str "2021-01-01 00:00:00");
           ("interval", json.Int (-5));
           ("callback_url", json.Str "https://example.org/run");
           ("callback_body", json.Object [])]);
        headers := {[ "Authorization" := "Bearer abc" ]};
        timeout := 10 |}].
Proof.
  apply (submit_command_line (platform := stub created)
           "" (Some "2021-01-01 00:00:00") "-5" "https://example.org/run" "{}"
           (Some "2021-01-01 00:00:00") (-5)
           {| urllib_parse.scheme := "https"; urllib_parse.netloc := "example.org";
              urllib_parse.path := "/run"; urllib_parse.params := "";
              urllib_parse.query := ""; urllib_parse.fragment := "" |}
           (json.Object []) "abc").
  - reflexivity.
  - reflexivity.
  - reflexivity.
  - discriminate.
  - right. reflexivity.
  - reflexivity.
  - reflexivity.
Defined.

Lemma no_request_without_accepted_arguments_witness :
  token_calls (snd (main (platform := stub created) cmd_submit
                      (submit_line "demo" None "sixty" "https://example.org/run" "{}")))
    = [] /\
  http_calls (snd (main (platform := stub created) cmd_submit
                     (submit_line "demo" None "sixty" "https://example.org/run" "{}")))
    = [].
Proof.
  apply (no_request_without_accepted_arguments (platform := stub created)
           cmd_submit (submit_line "demo" None "sixty" "https://example.org/run" "{}")).
  reflexivity.
Defined.

Lemma exit_status_is_0_1_or_2_witness :
  fst (main (platform := stub timed_out) cmd_list list_args) = 0 \/
  fst (main (platform := stub timed_out) cmd_list list_args) = 1 \/
  fst (main (platform := stub timed_out) cmd_list list_args) = 2.
Proof.
  apply (exit_status_is_0_1_or_2 (platform := stub timed_out) cmd_list list_args).
  - intros ts e H. discriminate H.
  - intros r e H. injection H as <-. reflexivity.
Defined.

(** [job list] interrupted from the keyboard while the request is under
    way. *)
Lemma interrupt_is_aborted_witness :
  fst (main (platform := stub (inl KeyboardInterrupt)) cmd_list list_args) = 1 /\
  stdout (snd (main (platform := stub (inl KeyboardInterrupt)) cmd_list list_args))
    = [] /\
  stderr (snd (main (platform := stub (inl KeyboardInterrupt)) cmd_list list_args))
    = [line ""; line "Aborted!"].
Proof.
  apply (interrupt_is_aborted (platform := stub (inl KeyboardInterrupt))
           cmd_list list_args call_list KeyboardInterrupt).
  - reflexivity.
  - exact I.
  - right. exists "abc". split; [reflexivity|]. intros q. reflexivity.
  - left. reflexivity.
Defined.

End MoreRuns.
